(** * bluesky-cli: a shallow embedding of [src/bluesky_cli/cli.py]

    The program is a thin command-line client.  Its own logic is the
    session-caching login flow ([get_client]), the text formatting of posts
    ([format_post]) and nine click commands that call the atproto client
    library.  The embedding keeps that shape:

    - Python [str] values are lists of code points, so [len] and slicing
      count characters the way Python does;
    - the session file, the standard streams and the calls to the atproto
      library are effects of a small state/exit/exception monad [M];
    - the atproto library and the process environment are inputs of the
      model (a record of oracles), never fixed to particular answers. *)

From Stdlib Require Import ZArith NArith List String Ascii Bool Lia DecimalString.
Import ListNotations.
Open Scope Z_scope.
Set Warnings "-register-all".


(** ** Python strings *)

Definition char := N.
Definition str := list char.

(** An ASCII literal of the source, as a list of code points. *)
Definition lit (s : string) : str := map N_of_ascii (list_ascii_of_string s).

(** The non-ASCII glyphs used in the messages of the source. *)
Definition CHECK_MARK : char := 10003%N.      (* U+2713 *)
Definition HEART : char := 9829%N.            (* U+2665 *)
Definition REPEAT_SIGN : char := 128257%N.    (* U+1F501 *)
Definition SPEECH_BALLOON : char := 128172%N. (* U+1F4AC *)

(** [len(s)] *)
Definition len (s : str) : Z := Z.of_nat (List.length s).

(** [s[:n]] for a literal [n >= 0] *)
Definition slice_to (n : nat) (s : str) : str := firstn n s.

(** [str.isspace] on one character: the code points Python strips. *)
Definition isspace (c : char) : bool :=
  ((9 <=? c) && (c <=? 13) || (28 <=? c) && (c <=? 32)
   || (c =? 133) || (c =? 160) || (c =? 5760)
   || (8192 <=? c) && (c <=? 8202)
   || (c =? 8232) || (c =? 8233) || (c =? 8239) || (c =? 8287)
   || (c =? 12288))%N.

Fixpoint lstrip (s : str) : str :=
  match s with
  | c :: r => if isspace c then lstrip r else s
  | [] => []
  end.

Definition rstrip (s : str) : str := rev (lstrip (rev s)).

(** [s.strip()] *)
Definition strip (s : str) : str := rstrip (lstrip s).

(** [sep.join(l)] *)
Fixpoint join (sep : str) (l : list str) : str :=
  match l with
  | [] => []
  | [x] => x
  | x :: r => x ++ sep ++ join sep r
  end.

(** [str(n)] for an int, as in an f-string. *)
Definition str_of_Z (z : Z) : str := lit (NilZero.string_of_int (Z.to_int z)).

(** [str(x)] for an [int | None] field. *)
Definition str_of_optZ (o : option Z) : str :=
  match o with
  | Some z => str_of_Z z
  | None => lit "None"
  end.

(** Truthiness of a [str | None] value: [None] and the empty string are falsy. *)
Definition truthy (o : option str) : bool :=
  match o with
  | Some (_ :: _) => true
  | _ => false
  end.

(** [a or b] for a [str | None] left operand. *)
Definition or_str (o : option str) (d : str) : str :=
  match o with
  | Some (c :: s) => c :: s
  | _ => d
  end.

(** [n or 0] for an [int | None] operand. *)
Definition or0 (o : option Z) : Z :=
  match o with
  | Some n => n
  | None => 0
  end.

(** [s.replace("Z", "+00:00")] *)
Definition replace_Z (s : str) : str :=
  flat_map (fun c => if (c =? 90)%N then lit "+00:00" else [c]) s.

(** ** The objects returned by the atproto library *)

Inductive CreatedAt :=
| CreatedStr (s : str)       (* the usual case: an ISO 8601 string *)
| CreatedObj (repr : str).   (* any other object, with its [str()] *)

Record Author := { handle : str; display_name : option str }.

Record PostRecord := { text : str; created_at : CreatedAt }.

Record PostView := {
  uri : str;
  cid : str;
  author : Author;
  record : PostRecord;
  like_count : option Z;
  repost_count : option Z;
  reply_count : option Z
}.

(** An item of a feed: [item.post] is the post view. *)
Record FeedViewPost := { post : PostView }.

(** A node of a thread.  Only [ThreadViewPost] has the attributes [post],
    [parent] and [replies]; the source tests for them with [hasattr]. *)
Inductive ThreadNode :=
| ThreadViewPost (p : PostView) (parent : option ThreadNode)
                 (replies : option (list ThreadNode))
| NotFoundPost (u : str)
| BlockedPost (u : str).

Definition node_post (n : ThreadNode) : option PostView :=
  match n with
  | ThreadViewPost p _ _ => Some p
  | _ => None
  end.

Definition node_parent (n : ThreadNode) : option ThreadNode :=
  match n with
  | ThreadViewPost _ parent _ => parent
  | _ => None
  end.

Definition node_replies (n : ThreadNode) : list ThreadNode :=
  match n with
  | ThreadViewPost _ _ (Some l) => l
  | _ => []
  end.

Record StrongRef := { ref_uri : str; ref_cid : str }.

Record ReplyRef := { root : StrongRef; parent_ref : StrongRef }.

Record ProfileView := {
  p_handle : str;
  p_display_name : option str;
  p_description : option str;
  followers_count : option Z;
  follows_count : option Z;
  posts_count : option Z
}.

(** A logged-in [Client]: [client.me] and what [export_session_string]
    returns for it. *)
Record Client := {
  me_handle : str;
  me_did : str;
  export_session_string : str
}.

(** ** Exceptions *)

(** All of these are subclasses of Python's [Exception]. *)
Inductive exn :=
| AtProtocolError (msg : str)
| IOError
| AttributeError
| OtherException.

(** ** The remote collaborator and the environment *)

Definition res (A : Type) : Type := A + exn.

Record Remote := {
  login_session : str -> res Client;
  login_password : str -> str -> res Client;
  send_post : Client -> str -> option ReplyRef -> res StrongRef;
  get_post_thread : Client -> str -> res ThreadNode;
  like_post : Client -> str -> str -> res unit;
  get_timeline : Client -> Z -> res (list FeedViewPost);
  search_posts : Client -> str -> Z -> res (list PostView);
  get_profile : Client -> str -> res ProfileView
}.

Record World := {
  environ : str -> option str;       (* [os.environ.get] *)
  atproto : Remote;
  home : str;                        (* [str(Path.home())] *)
  (* [datetime.fromisoformat(s).strftime("%Y-%m-%d %H:%M")], [None] when
     [fromisoformat] raises [ValueError] *)
  iso_minutes : str -> option str
}.

(** ** Effects *)

Inductive Call :=
| LoginSession (session_string : str)
| LoginPassword (h p : str)
| SendPost (t : str) (reply_to : option ReplyRef)
| GetPostThread (u : str)
| Like (u c : str)
| GetTimeline (limit : Z)
| SearchPosts (q : str) (limit : Z)
| GetProfile (h : str).

Definition is_login (c : Call) : bool :=
  match c with
  | LoginSession _ | LoginPassword _ _ => true
  | _ => false
  end.

Definition is_password_login (c : Call) : bool :=
  match c with
  | LoginPassword _ _ => true
  | _ => false
  end.

Inductive Event :=
| EvRemote (c : Call) (ok : bool)   (* a call into the library and whether it returned *)
| EvEcho (err : bool) (s : str)     (* [click.echo(s, err=err)] *)
| EvGetenv (name : str).            (* [os.environ.get(name)] *)

(** The session file [SESSION_FILE]: its contents when it exists, whether
    reading it succeeds, and whether creating the directory and writing the
    file succeed.  Removing an existing file is taken to succeed. *)
Record FS := {
  file : option str;
  read_ok : bool;
  write_ok : bool
}.

Record State := { fs : FS; trace : list Event }.

Inductive outcome (A : Type) :=
| Ret (a : A)          (* normal completion *)
| Exit (code : Z)      (* [sys.exit(code)] *)
| Raise (e : exn).     (* an exception on its way up *)
Arguments Ret {A} a.
Arguments Exit {A} code.
Arguments Raise {A} e.

Definition M (A : Type) : Type := State -> outcome A * State.

Definition ret {A} (a : A) : M A := fun st => (Ret a, st).

Definition bind {A B} (m : M A) (k : A -> M B) : M B :=
  fun st =>
    match m st with
    | (Ret a, st') => k a st'
    | (Exit n, st') => (Exit n, st')
    | (Raise e, st') => (Raise e, st')
    end.

Declare Scope py_scope.
Delimit Scope py_scope with py.
Notation "x <- m ;; k" := (bind m (fun x => k))
  (at level 100, m at next level, right associativity) : py_scope.
Notation "m ;;; k" := (bind m (fun _ => k))
  (at level 100, right associativity) : py_scope.
Open Scope py_scope.

Definition sys_exit {A} (code : Z) : M A := fun st => (Exit code, st).

Definition raise {A} (e : exn) : M A := fun st => (Raise e, st).

Definition log (e : Event) : M unit :=
  fun st => (Ret tt, {| fs := fs st; trace := trace st ++ [e] |}).

Definition echo (s : str) : M unit := log (EvEcho false s).

Definition echo_err (s : str) : M unit := log (EvEcho true s).

Definition getenv (w : World) (name : str) : M (option str) :=
  log (EvGetenv name) ;;; ret (environ w name).

Definition is_inl {A B} (r : A + B) : bool :=
  match r with
  | inl _ => true
  | inr _ => false
  end.

(** A call into the library: it is recorded, and its answer is returned or
    raised. *)
Definition remote {A} (c : Call) (r : res A) : M A :=
  log (EvRemote c (is_inl r)) ;;;
  match r with
  | inl a => ret a
  | inr e => raise e
  end.

(** [try: body  except Exception: handler] *)
Definition try_Exception {A} (body : M A) (handler : M A) : M A :=
  fun st =>
    match body st with
    | (Raise _, st') => handler st'
    | r => r
    end.

(** [try: body  except AtProtocolError as e: handler e]; any other exception
    goes through. *)
Definition try_AtProtocolError {A} (body : M A) (handler : str -> M A) : M A :=
  fun st =>
    match body st with
    | (Raise (AtProtocolError msg), st') => handler msg st'
    | r => r
    end.

(** [for x in l: body x] *)
Fixpoint for_each {A} (l : list A) (body : A -> M unit) : M unit :=
  match l with
  | [] => ret tt
  | x :: r => body x ;;; for_each r body
  end.

(** ** The session file *)

Definition SESSION_FILE_exists : M bool :=
  fun st => (Ret (match file (fs st) with Some _ => true | None => false end), st).

Definition SESSION_FILE_read_text : M str :=
  fun st =>
    match file (fs st) with
    | Some s => if read_ok (fs st) then (Ret s, st) else (Raise IOError, st)
    | None => (Raise IOError, st)
    end.

(** [SESSION_FILE.parent.mkdir(parents=True, exist_ok=True)] followed by
    [SESSION_FILE.write_text(s)] *)
Definition SESSION_FILE_write_text (s : str) : M unit :=
  fun st =>
    if write_ok (fs st)
    then (Ret tt, {| fs := {| file := Some s; read_ok := read_ok (fs st);
                              write_ok := write_ok (fs st) |};
                     trace := trace st |})
    else (Raise IOError, st).

Definition SESSION_FILE_unlink : M unit :=
  fun st =>
    (Ret tt, {| fs := {| file := None; read_ok := read_ok (fs st);
                         write_ok := write_ok (fs st) |};
                trace := trace st |}).

Definition save_session (client : Client) : M unit :=
  let session_string := export_session_string client in
  SESSION_FILE_write_text session_string.

Definition load_session : M (option str) :=
  e <- SESSION_FILE_exists ;;
  if negb e then ret None
  else
    fun st =>
      match SESSION_FILE_read_text st with
      | (Ret s, st') => (Ret (Some (strip s)), st')
      | (Raise _, st') => (Ret None, st')     (* except IOError *)
      | (Exit n, st') => (Exit n, st')
      end.

Definition clear_session : M unit :=
  e <- SESSION_FILE_exists ;;
  if e then SESSION_FILE_unlink else ret tt.

(** ** [get_client] *)

Definition BLUESKY_HANDLE : str := lit "BLUESKY_HANDLE".
Definition BLUESKY_APP_PASSWORD : str := lit "BLUESKY_APP_PASSWORD".

(** The first half of [get_client]: [Some client] stands for the early
    [return client], [None] for falling through to the fresh login. *)
Definition restore_session (w : World) : M (option Client) :=
  session_string <- load_session ;;
  if truthy session_string then
    let s := or_str session_string [] in
    try_Exception
      (client <- remote (LoginSession s) (login_session (atproto w) s) ;;
       save_session client ;;;
       ret (Some client))
      (clear_session ;;; ret None)
  else ret None.

Definition fresh_login (w : World) : M Client :=
  h <- getenv w BLUESKY_HANDLE ;;
  p <- getenv w BLUESKY_APP_PASSWORD ;;
  if negb (truthy h) || negb (truthy p) then
    echo_err (lit "Error: BLUESKY_HANDLE and BLUESKY_APP_PASSWORD must be set") ;;;
    sys_exit 1
  else
    let h := or_str h [] in
    let p := or_str p [] in
    try_AtProtocolError
      (client <- remote (LoginPassword h p) (login_password (atproto w) h p) ;;
       save_session client ;;;
       echo_err (CHECK_MARK :: lit " Logged in as @" ++ me_handle client
                 ++ lit " (session cached)") ;;;
       ret client)
      (fun e => echo_err (lit "Login failed: " ++ e) ;;; sys_exit 1).

Definition get_client (w : World) : M Client :=
  r <- restore_session w ;;
  match r with
  | Some client => ret client
  | None => fresh_login w
  end.

(** ** [format_post] *)

Definition NL : str := [10%N].

Definition time_str_of (w : World) (created : CreatedAt) : str :=
  match created with
  | CreatedStr s =>
      match iso_minutes w (replace_Z s) with
      | Some t => t
      | None => s          (* except ValueError *)
      end
  | CreatedObj repr => repr
  end.

Definition author_line (a : Author) : str :=
  lit "@" ++ handle a ++ lit " (" ++ or_str (display_name a) (handle a) ++ lit ")".

Definition stats_line (p : PostView) : str :=
  lit "  " ++ [HEART] ++ lit " " ++ str_of_Z (or0 (like_count p))
  ++ lit "  " ++ [REPEAT_SIGN] ++ lit " " ++ str_of_Z (or0 (repost_count p))
  ++ lit "  " ++ [SPEECH_BALLOON] ++ lit " " ++ str_of_Z (or0 (reply_count p)).

Definition format_post (w : World) (item : FeedViewPost) (show_uri : bool) : str :=
  let rec := record (post item) in
  let auth := author (post item) in
  let time_str := time_str_of w (created_at rec) in
  let lines := [] in
  let lines := lines ++ [author_line auth] in
  let lines := lines ++ [lit "  " ++ text rec] in
  let lines := lines ++ [lit "  " ++ time_str] in
  let stats := stats_line (post item) in
  let lines := lines ++ [stats] in
  let lines := if show_uri then lines ++ [lit "  URI: " ++ uri (post item)] else lines in
  join NL lines.

(** ** The commands *)

(** [obj.post] on a thread node: only [ThreadViewPost] has the attribute. *)
Definition getattr_post (n : ThreadNode) : M PostView :=
  match node_post n with
  | Some p => ret p
  | None => raise AttributeError
  end.

(** [text[:50]] followed by ["..."] when the text is longer. *)
Definition preview50 (t : str) : str :=
  slice_to 50 t ++ (if len t >? 50 then lit "..." else []).

Definition SESSION_FILE_path (w : World) : str :=
  home w ++ lit "/.cache/bsky/session.txt".

Module Cmd.

Definition post (w : World) (text : str) : M unit :=
  (if len text >? 300 then
     echo_err (lit "Error: Post too long (" ++ str_of_Z (len text)
               ++ lit " chars, max 300)") ;;;
     sys_exit 1
   else ret tt) ;;;
  client <- get_client w ;;
  try_AtProtocolError
    (result <- remote (SendPost text None) (send_post (atproto w) client text None) ;;
     echo (CHECK_MARK :: lit " Posted: " ++ preview50 text) ;;;
     echo (lit "  URI: " ++ ref_uri result))
    (fun e => echo_err (lit "Failed to post: " ++ e) ;;; sys_exit 1).

Definition timeline (w : World) (limit : Z) (uri : bool) : M unit :=
  client <- get_client w ;;
  try_AtProtocolError
    (feed <- remote (GetTimeline limit) (get_timeline (atproto w) client limit) ;;
     echo (lit "# Timeline (" ++ str_of_Z (Z.of_nat (List.length feed))
           ++ lit " posts)" ++ NL) ;;;
     for_each feed (fun item => echo (format_post w item uri) ;;; echo []))
    (fun e => echo_err (lit "Failed to get timeline: " ++ e) ;;; sys_exit 1).

Definition reply (w : World) (post_uri text : str) : M unit :=
  (if len text >? 300 then
     echo_err (lit "Error: Reply too long (" ++ str_of_Z (len text)
               ++ lit " chars, max 300)") ;;;
     sys_exit 1
   else ret tt) ;;;
  client <- get_client w ;;
  try_AtProtocolError
    (thread <- remote (GetPostThread post_uri)
                      (get_post_thread (atproto w) client post_uri) ;;
     parent <- getattr_post thread ;;
     let r := {| ref_uri := uri parent; ref_cid := cid parent |} in
     let reply_ref := {| root := r; parent_ref := r |} in
     result <- remote (SendPost text (Some reply_ref))
                      (send_post (atproto w) client text (Some reply_ref)) ;;
     echo (CHECK_MARK :: lit " Replied: " ++ preview50 text) ;;;
     echo (lit "  URI: " ++ ref_uri result))
    (fun e => echo_err (lit "Failed to reply: " ++ e) ;;; sys_exit 1).

Definition like (w : World) (post_uri : str) : M unit :=
  client <- get_client w ;;
  try_AtProtocolError
    (thread <- remote (GetPostThread post_uri)
                      (get_post_thread (atproto w) client post_uri) ;;
     p <- getattr_post thread ;;
     remote (Like (uri p) (cid p)) (like_post (atproto w) client (uri p) (cid p)) ;;;
     echo (CHECK_MARK :: lit " Liked post by @" ++ handle (author p)))
    (fun e => echo_err (lit "Failed to like: " ++ e) ;;; sys_exit 1).

(** One iteration of the loop over [thread_post.replies[:10]]. *)
Definition show_reply (reply : ThreadNode) : M unit :=
  match node_post reply with
  | Some p =>
      echo (lit "@" ++ handle (author p) ++ lit ": "
            ++ slice_to 100 (text (record p))) ;;;
      echo []
  | None => ret tt
  end.

Definition thread (w : World) (post_uri : str) : M unit :=
  client <- get_client w ;;
  try_AtProtocolError
    (thread_post <- remote (GetPostThread post_uri)
                           (get_post_thread (atproto w) client post_uri) ;;
     (match node_parent thread_post with
      | Some parent =>
          echo (lit "--- Parent ---") ;;;
          (match node_post parent with
           | Some p => echo (lit "@" ++ handle (author p) ++ lit ": "
                             ++ text (record p))
           | None => ret tt
           end) ;;;
          echo []
      | None => ret tt
      end) ;;;
     echo (lit "--- Post ---") ;;;
     p <- getattr_post thread_post ;;
     echo (author_line (author p)) ;;;
     echo (lit "  " ++ text (record p)) ;;;
     echo (stats_line p) ;;;
     echo [] ;;;
     match node_replies thread_post with
     | [] => ret tt
     | replies =>
         echo (lit "--- Replies ---") ;;;
         for_each (firstn 10 replies) show_reply
     end)
    (fun e => echo_err (lit "Failed to get thread: " ++ e) ;;; sys_exit 1).

Definition search (w : World) (query : str) (limit : Z) : M unit :=
  client <- get_client w ;;
  try_AtProtocolError
    (posts <- remote (SearchPosts query limit)
                     (search_posts (atproto w) client query limit) ;;
     echo (lit "# Search: '" ++ query ++ lit "' ("
           ++ str_of_Z (Z.of_nat (List.length posts)) ++ lit " results)" ++ NL) ;;;
     for_each posts (fun p =>
       echo (lit "@" ++ handle (author p) ++ lit ": "
             ++ slice_to 100 (text (record p)) ++ lit "...") ;;;
       echo (lit "  " ++ [HEART] ++ lit " " ++ str_of_Z (or0 (like_count p))
             ++ lit "  URI: " ++ uri p) ;;;
       echo []))
    (fun e => echo_err (lit "Failed to search: " ++ e) ;;; sys_exit 1).

Definition profile (w : World) (handle : option str) : M unit :=
  client <- get_client w ;;
  try_AtProtocolError
    (let handle := match handle with
                   | None => me_handle client
                   | Some h => h
                   end in
     result <- remote (GetProfile handle) (get_profile (atproto w) client handle) ;;
     echo (lit "# @" ++ p_handle result) ;;;
     (if truthy (p_display_name result)
      then echo (lit "  " ++ or_str (p_display_name result) [])
      else ret tt) ;;;
     (if truthy (p_description result)
      then echo (lit "  " ++ or_str (p_description result) [])
      else ret tt) ;;;
     echo [] ;;;
     echo (lit "  Followers: " ++ str_of_optZ (followers_count result)) ;;;
     echo (lit "  Following: " ++ str_of_optZ (follows_count result)) ;;;
     echo (lit "  Posts: " ++ str_of_optZ (posts_count result)))
    (fun e => echo_err (lit "Failed to get profile: " ++ e) ;;; sys_exit 1).

Definition whoami (w : World) : M unit :=
  client <- get_client w ;;
  echo (lit "Logged in as: @" ++ me_handle client) ;;;
  echo (lit "DID: " ++ me_did client) ;;;
  e <- SESSION_FILE_exists ;;
  if e then echo (lit "Session cached at: " ++ SESSION_FILE_path w) else ret tt.

Definition logout : M unit :=
  e <- SESSION_FILE_exists ;;
  if e then
    clear_session ;;;
    echo (CHECK_MARK :: lit " Session cleared")
  else
    echo (lit "No cached session found").

End Cmd.

(** The click group: one parsed command line per constructor. *)
Inductive Command :=
| Post (text : str)
| Timeline (limit : Z) (uri : bool)
| Reply (post_uri text : str)
| LikeCmd (post_uri : str)
| Thread (post_uri : str)
| Search (query : str) (limit : Z)
| Profile (handle : option str)
| Whoami
| Logout.

Definition cli (w : World) (c : Command) : M unit :=
  match c with
  | Post t => Cmd.post w t
  | Timeline n u => Cmd.timeline w n u
  | Reply u t => Cmd.reply w u t
  | LikeCmd u => Cmd.like w u
  | Thread u => Cmd.thread w u
  | Search q n => Cmd.search w q n
  | Profile h => Cmd.profile w h
  | Whoami => Cmd.whoami w
  | Logout => Cmd.logout
  end.

(** The exit status of the process: 0 when the command returns, the argument
    of [sys.exit], and 1 when an exception reaches the top level (the
    interpreter prints the traceback and exits with status 1). *)
Definition exit_status {A} (r : outcome A) : Z :=
  match r with
  | Ret _ => 0
  | Exit n => n
  | Raise _ => 1
  end.

Definition main (w : World) (c : Command) (st : State) : Z * State :=
  let (r, st') := cli w c st in (exit_status r, st').

(** ** Observations on a run *)

Definition calls (tr : list Event) : list Call :=
  flat_map (fun e => match e with EvRemote c _ => [c] | _ => [] end) tr.

(** The content requests: every call into the library that is not a login. *)
Definition content_calls (tr : list Event) : list Call :=
  filter (fun c => negb (is_login c)) (calls tr).

Definition password_logins (tr : list Event) : list Call :=
  filter is_password_login (calls tr).

Definition getenvs (tr : list Event) : list str :=
  flat_map (fun e => match e with EvGetenv n => [n] | _ => [] end) tr.

Definition stdout (tr : list Event) : list str :=
  flat_map (fun e => match e with EvEcho false s => [s] | _ => [] end) tr.

Definition stderr (tr : list Event) : list str :=
  flat_map (fun e => match e with EvEcho true s => [s] | _ => [] end) tr.

(** A failed call other than the restoring of the cached session, which
    [get_client] recovers from. *)
Definition is_failure (e : Event) : bool :=
  match e with
  | EvRemote (LoginSession _) _ => false
  | EvRemote _ ok => negb ok
  | _ => false
  end.

(** The local validation of a command line: the text of [post] and [reply]
    is at most 300 characters long. *)
Definition too_long (c : Command) : bool :=
  match c with
  | Post t | Reply _ t => len t >? 300
  | _ => false
  end.

Definition set_file (f : option str) (d : FS) : FS :=
  {| file := f; read_ok := read_ok d; write_ok := write_ok d |}.

Definition emit (evs : list Event) (st : State) : State :=
  {| fs := fs st; trace := trace st ++ evs |}.

(** ** A concrete world, for examples *)

Module Sample.

Fixpoint str_eqb (a b : str) : bool :=
  match a, b with
  | [], [] => true
  | x :: a', y :: b' => (x =? y)%N && str_eqb a' b'
  | _, _ => false
  end.

Definition alice : Client :=
  {| me_handle := lit "alice.bsky.social";
     me_did := lit "did:plc:alice";
     export_session_string := lit "alice:session:2" |}.

Definition mk_post (h t : str) : PostView :=
  {| uri := lit "at://" ++ h ++ lit "/app.bsky.feed.post/1";
     cid := lit "bafy1";
     author := {| handle := h; display_name := None |};
     record := {| text := t; created_at := CreatedStr (lit "2024-05-01T10:20:30Z") |};
     like_count := Some 3; repost_count := None; reply_count := Some 12 |}.

Definition twelve_replies : list ThreadNode :=
  map (fun n => ThreadViewPost (mk_post (lit "bob.test") (repeat (48 + n)%N 120))
                               None None)
      [0; 1; 2; 3; 4; 5; 6; 7; 8; 9; 10; 11]%N.

Definition a_thread : ThreadNode :=
  ThreadViewPost (mk_post (lit "carol.test") (lit "hello"))
                 None (Some (NotFoundPost (lit "at://gone") :: twelve_replies)).

(** The library accepts the session string ["alice:session:1"] and the
    credentials of alice, and answers every content request. *)
Definition lib : Remote :=
  {| login_session := fun s =>
       if str_eqb s (lit "alice:session:1") then inl alice
       else inr (AtProtocolError (lit "ExpiredToken"));
     login_password := fun h p =>
       if str_eqb h (lit "alice.bsky.social") && str_eqb p (lit "app-pw")
       then inl alice
       else inr (AtProtocolError (lit "AuthenticationRequired"));
     send_post := fun _ _ _ =>
       inl {| ref_uri := lit "at://alice/app.bsky.feed.post/9"; ref_cid := lit "bafy9" |};
     get_post_thread := fun _ _ => inl a_thread;
     like_post := fun _ _ _ => inl tt;
     get_timeline := fun _ _ =>
       inl [ {| post := mk_post (lit "carol.test") (lit "hello") |} ];
     search_posts := fun _ _ _ => inl [ mk_post (lit "carol.test") (lit "hello") ];
     get_profile := fun _ h =>
       inl {| p_handle := h; p_display_name := None; p_description := None;
              followers_count := Some 1; follows_count := Some 2;
              posts_count := Some 3 |} |}.

Definition env_of (h p : option str) : str -> option str :=
  fun name =>
    if str_eqb name BLUESKY_HANDLE then h
    else if str_eqb name BLUESKY_APP_PASSWORD then p
    else None.

Definition world (h p : option str) : World :=
  {| environ := env_of h p;
     atproto := lib;
     home := lit "/home/alice";
     iso_minutes := fun _ => None |}.

(** Both credentials set. *)
Definition w_creds : World :=
  world (Some (lit "alice.bsky.social")) (Some (lit "app-pw")).

(** No credentials in the environment. *)
Definition w_nocreds : World := world None None.

Definition state_with (f : option str) : State :=
  {| fs := {| file := f; read_ok := true; write_ok := true |}; trace := [] |}.

(** A cached session the library accepts, one it rejects, and none. *)
Definition st_valid : State := state_with (Some (lit "alice:session:1" ++ NL)).
Definition st_stale : State := state_with (Some (lit "alice:session:0" ++ NL)).
Definition st_none : State := state_with None.

Definition long_text : str := repeat 120%N 301.

End Sample.

(** ** More worlds, for examples *)

Module Sample2.


(** A library whose logins work as in [Sample.lib] and whose content
    requests all raise [e]. *)
Definition lib_failing (e : exn) : Remote :=
  {| login_session := login_session Sample.lib;
     login_password := login_password Sample.lib;
     send_post := fun _ _ _ => inr e;
     get_post_thread := fun _ _ => inr e;
     like_post := fun _ _ _ => inr e;
     get_timeline := fun _ _ => inr e;
     search_posts := fun _ _ _ => inr e;
     get_profile := fun _ _ => inr e |}.

(** A library that finds the thread and then refuses to post or like. *)
Definition lib_readonly (e : exn) : Remote :=
  {| login_session := login_session Sample.lib;
     login_password := login_password Sample.lib;
     send_post := fun _ _ _ => inr e;
     get_post_thread := get_post_thread Sample.lib;
     like_post := fun _ _ _ => inr e;
     get_timeline := get_timeline Sample.lib;
     search_posts := search_posts Sample.lib;
     get_profile := get_profile Sample.lib |}.

(** A library that answers every thread lookup with a not-found node. *)
Definition lib_notfound : Remote :=
  {| login_session := login_session Sample.lib;
     login_password := login_password Sample.lib;
     send_post := send_post Sample.lib;
     get_post_thread := fun _ u => inl (NotFoundPost u);
     like_post := like_post Sample.lib;
     get_timeline := get_timeline Sample.lib;
     search_posts := search_posts Sample.lib;
     get_profile := get_profile Sample.lib |}.

(** A library whose credential login breaks with an exception that is not
    an [AtProtocolError]. *)
Definition lib_broken_login : Remote :=
  {| login_session := login_session Sample.lib;
     login_password := fun _ _ => inr OtherException;
     send_post := send_post Sample.lib;
     get_post_thread := get_post_thread Sample.lib;
     like_post := like_post Sample.lib;
     get_timeline := get_timeline Sample.lib;
     search_posts := search_posts Sample.lib;
     get_profile := get_profile Sample.lib |}.

Definition world_of (l : Remote) (h p : option str) : World :=
  {| environ := Sample.env_of h p;
     atproto := l;
     home := lit "/home/alice";
     iso_minutes := fun _ => None |}.

Definition alice_creds (l : Remote) : World :=
  world_of l (Some (lit "alice.bsky.social")) (Some (lit "app-pw")).


End Sample2.

(** ** Vocabulary of the statements *)


(** The cached session can be restored: the file is there and readable, its
    stripped contents are not empty, the library accepts them and the
    refreshed session can be written back. *)
Definition restorable (w : World) (st : State) (c : Client) : Prop :=
  exists raw,
    file (fs st) = Some raw /\ read_ok (fs st) = true /\ strip raw <> []
    /\ login_session (atproto w) (strip raw) = inl c
    /\ write_ok (fs st) = true.

(** There is no usable cached session: the file is absent, unreadable or
    blank, or the library rejects its contents. *)
Definition no_valid_session (w : World) (st : State) : Prop :=
  file (fs st) = None
  \/ exists raw,
       file (fs st) = Some raw
       /\ (read_ok (fs st) = false \/ strip raw = []
           \/ exists e, login_session (atproto w) (strip raw) = inr e).

(** A credential is missing: unset, or set to the empty string. *)
Definition credentials_missing (w : World) : Prop :=
  truthy (environ w BLUESKY_HANDLE) = false
  \/ truthy (environ w BLUESKY_APP_PASSWORD) = false.

Definition MSG_CREDENTIALS : str :=
  lit "Error: BLUESKY_HANDLE and BLUESKY_APP_PASSWORD must be set".

(** What the claim describes: the posts of the first ten replies, and the
    lines printed for them. *)
Definition shown_replies (replies : list ThreadNode) : list PostView :=
  flat_map (fun r => match node_post r with Some p => [p] | None => [] end)
           (firstn 10 replies).

Definition reply_line (p : PostView) : str :=
  lit "@" ++ handle (author p) ++ lit ": " ++ firstn 100 (text (record p)).

Definition replies_lines (replies : list ThreadNode) : list str :=
  match replies with
  | [] => []
  | _ => lit "--- Replies ---" :: flat_map (fun p => [reply_line p; []]) (shown_replies replies)
  end.

Definition parent_lines (parent : option ThreadNode) : list str :=
  match parent with
  | None => []
  | Some n =>
      lit "--- Parent ---" ::
      match node_post n with
      | Some p => [lit "@" ++ handle (author p) ++ lit ": " ++ text (record p)]
      | None => []
      end ++ [[]]
  end.

Definition post_lines (p : PostView) : list str :=
  [lit "--- Post ---"; author_line (author p); lit "  " ++ text (record p);
   stats_line p; []].

(** The reply reference built by [reply]: root and parent are both the post
    replied to. *)
Definition reply_ref_of (p : PostView) : ReplyRef :=
  let r := {| ref_uri := uri p; ref_cid := cid p |} in
  {| root := r; parent_ref := r |}.

(** The content requests of a command that got its client: one for [post],
    [timeline], [thread], [search] and [profile]; for [reply] and [like] the
    thread lookup, followed by the posting or the like when the lookup
    returned a thread view with a post. *)
Definition requests (w : World) (client : Client) (c : Command) : list Call :=
  match c with
  | Post t => [SendPost t None]
  | Timeline n _ => [GetTimeline n]
  | Thread u => [GetPostThread u]
  | Search q n => [SearchPosts q n]
  | Profile h => [GetProfile (match h with None => me_handle client | Some h' => h' end)]
  | Reply u t =>
      GetPostThread u ::
      match get_post_thread (atproto w) client u with
      | inl (ThreadViewPost p _ _) => [SendPost t (Some (reply_ref_of p))]
      | _ => []
      end
  | LikeCmd u =>
      GetPostThread u ::
      match get_post_thread (atproto w) client u with
      | inl (ThreadViewPost p _ _) => [Like (uri p) (cid p)]
      | _ => []
      end
  | Whoami | Logout => []
  end.

Definition has_post (r : res ThreadNode) : bool :=
  match r with
  | inl (ThreadViewPost _ _ _) => true
  | _ => false
  end.

Definition no_failure (evs : list Event) : bool :=
  forallb (fun e => negb (is_failure e)) evs.

(** What a run may end with, given the events it added: it returns only if
    none of them is a failure, and it exits only with code 1. *)
Definition post_ok {A} (evs : list Event) (r : outcome A) : Prop :=
  match r with
  | Ret _ => no_failure evs = true
  | Exit n => n = 1
  | Raise _ => True
  end.

Definition sound {A} (m : M A) : Prop :=
  forall st, exists evs,
    trace (snd (m st)) = trace st ++ evs /\ post_ok evs (fst (m st)).

(** The calls [get_client] may make: at most one restore of the cached
    session, followed by at most one credential login. *)
Definition login_shape (l : list Call) : bool :=
  match l with
  | [] | [LoginSession _] | [LoginPassword _ _]
  | [LoginSession _; LoginPassword _ _] => true
  | _ => false
  end.


Definition is_AtProtocolError (e : exn) : bool :=
  match e with
  | AtProtocolError _ => true
  | _ => false
  end.

Definition err_of {A} (r : res A) : option exn :=
  match r with
  | inl _ => None
  | inr e => Some e
  end.

(** The exception, if any, raised by the first content request of a
    command. *)
Definition first_error (w : World) (client : Client) (c : Command) : option exn :=
  match c with
  | Post t => err_of (send_post (atproto w) client t None)
  | Timeline n _ => err_of (get_timeline (atproto w) client n)
  | Reply u _ | LikeCmd u | Thread u => err_of (get_post_thread (atproto w) client u)
  | Search q n => err_of (search_posts (atproto w) client q n)
  | Profile h =>
      err_of (get_profile (atproto w) client
                (match h with None => me_handle client | Some h' => h' end))
  | Whoami | Logout => None
  end.

(** The prefix of the message each command prints for an [AtProtocolError]. *)
Definition failure_prefix (c : Command) : str :=
  match c with
  | Post _ => lit "Failed to post: "
  | Timeline _ _ => lit "Failed to get timeline: "
  | Reply _ _ => lit "Failed to reply: "
  | LikeCmd _ => lit "Failed to like: "
  | Thread _ => lit "Failed to get thread: "
  | Search _ _ => lit "Failed to search: "
  | Profile _ => lit "Failed to get profile: "
  | Whoami | Logout => []
  end.

(** A feed item with the defaults of [format_post] filled in: absent counts
    are 0, an absent or empty display name is the handle. *)
Definition defaulted (item : FeedViewPost) : FeedViewPost :=
  let p := post item in
  {| post := {| uri := uri p; cid := cid p;
                author := {| handle := handle (author p);
                             display_name :=
                               Some (or_str (display_name (author p)) (handle (author p))) |};
                record := record p;
                like_count := Some (or0 (like_count p));
                repost_count := Some (or0 (repost_count p));
                reply_count := Some (or0 (reply_count p)) |} |}.

(** The lines [search] prints for one result. *)
Definition search_lines (p : PostView) : list str :=
  [lit "@" ++ handle (author p) ++ lit ": " ++ firstn 100 (text (record p)) ++ lit "...";
   lit "  " ++ [HEART] ++ lit " " ++ str_of_Z (or0 (like_count p))
   ++ lit "  URI: " ++ uri p;
   []].

(** The lines [profile] prints for a profile. *)
Definition profile_lines (r : ProfileView) : list str :=
  [lit "# @" ++ p_handle r]
  ++ (if truthy (p_display_name r) then [lit "  " ++ or_str (p_display_name r) []] else [])
  ++ (if truthy (p_description r) then [lit "  " ++ or_str (p_description r) []] else [])
  ++ [[];
      lit "  Followers: " ++ str_of_optZ (followers_count r);
      lit "  Following: " ++ str_of_optZ (follows_count r);
      lit "  Posts: " ++ str_of_optZ (posts_count r)].


(** A computation that leaves the session file as it found it. *)
Definition keeps_fs {A} (m : M A) : Prop := forall st, fs (snd (m st)) = fs st.

(** ** Basic facts about the monad *)

Lemma bind_Ret {A B} (m : M A) (k : A -> M B) st a st' :
  m st = (Ret a, st') -> bind m k st = k a st'.
Proof. intros H. unfold bind. now rewrite H. Qed.

Lemma bind_Exit {A B} (m : M A) (k : A -> M B) st n st' :
  m st = (Exit n, st') -> bind m k st = (Exit n, st').
Proof. intros H. unfold bind. now rewrite H. Qed.

Lemma bind_Raise {A B} (m : M A) (k : A -> M B) st e st' :
  m st = (Raise e, st') -> bind m k st = (Raise e, st').
Proof. intros H. unfold bind. now rewrite H. Qed.

Lemma emit_emit evs1 evs2 st : emit evs2 (emit evs1 st) = emit (evs1 ++ evs2) st.
Proof. unfold emit. simpl. now rewrite app_assoc. Qed.

Lemma emit_nil st : emit [] st = st.
Proof. destruct st. unfold emit. simpl. now rewrite app_nil_r. Qed.

Lemma log_emit e st : log e st = (Ret tt, emit [e] st).
Proof. reflexivity. Qed.

Lemma len_gtb (t : str) (n : Z) : len t > n -> (len t >? n) = true.
Proof. intros H. apply Z.gtb_lt. lia. Qed.

(** ** Local validation (claim C2) *)

(** C2.  When the text is longer than 300 characters, [post] and [reply]
    stop with exit code 1 after one message on the error stream: the run
    consists of that single event, so no client was obtained, no call into
    the library was made, the environment was not read and the session file
    is untouched. *)
Theorem oversized_text_rejected_locally (w : World) (post_uri text : str) (st : State) :
  len text > 300 ->
  Cmd.post w text st =
    (Exit 1, emit [EvEcho true (lit "Error: Post too long (" ++ str_of_Z (len text)
                                ++ lit " chars, max 300)")] st)
  /\ Cmd.reply w post_uri text st =
    (Exit 1, emit [EvEcho true (lit "Error: Reply too long (" ++ str_of_Z (len text)
                                ++ lit " chars, max 300)")] st)
  /\ fst (main w (Post text) st) = 1
  /\ fst (main w (Reply post_uri text) st) = 1
  /\ calls (trace (snd (main w (Post text) st))) = calls (trace st)
  /\ calls (trace (snd (main w (Reply post_uri text) st))) = calls (trace st).
Proof.
  intros Hlen. apply len_gtb in Hlen.
  assert (Hp : Cmd.post w text st =
    (Exit 1, emit [EvEcho true (lit "Error: Post too long (" ++ str_of_Z (len text)
                                ++ lit " chars, max 300)")] st)).
  { unfold Cmd.post. rewrite Hlen. reflexivity. }
  assert (Hr : Cmd.reply w post_uri text st =
    (Exit 1, emit [EvEcho true (lit "Error: Reply too long (" ++ str_of_Z (len text)
                                ++ lit " chars, max 300)")] st)).
  { unfold Cmd.reply. rewrite Hlen. reflexivity. }
  unfold main, cli. rewrite Hp, Hr. simpl.
  repeat split; unfold calls; rewrite flat_map_app; simpl; apply app_nil_r.
Qed.

Lemma oversized_text_rejected_locally_witness :
  len Sample.long_text > 300
  /\ Cmd.post Sample.w_creds Sample.long_text Sample.st_valid =
       (Exit 1, emit [EvEcho true (lit "Error: Post too long (301 chars, max 300)")]
                     Sample.st_valid).
Proof.
  split; [reflexivity|].
  apply (oversized_text_rejected_locally Sample.w_creds (lit "at://x")
           Sample.long_text Sample.st_valid).
  reflexivity.
Defined.

(** ** [logout] (claim C6) *)


(** ** [format_post] (claim C7) *)


(** ** Symbolic execution of [get_client] *)

(** Case analysis on the innermost scrutinee of the goal. *)
Ltac break_inner :=
  match goal with
  | |- context [match ?x with _ => _ end] =>
      lazymatch x with
      | context [match _ with _ => _ end] => fail
      | _ => destruct x eqn:?
      end
  end.

Ltac unfold_session :=
  unfold get_client, restore_session, fresh_login, load_session, save_session,
    clear_session, SESSION_FILE_exists, SESSION_FILE_read_text,
    SESSION_FILE_write_text, SESSION_FILE_unlink, getenv, remote, echo, echo_err,
    try_Exception, try_AtProtocolError, sys_exit, raise, log, bind, ret.

Ltac norm_trace := simpl; rewrite <- ?app_assoc; simpl.

Ltac exec := unfold_session; simpl; repeat (break_inner; simpl in *; try discriminate).

(** C9.  A client returned by [get_client] has its exported session string
    in the session file: both returning paths call [save_session] last among
    the operations on the file, and a failed write never returns. *)
Theorem returned_client_session_is_saved (w : World) (st st' : State) (c : Client) :
  get_client w st = (Ret c, st') ->
  file (fs st') = Some (export_session_string c).
Proof.
  destruct st as [[f r wr] tr]. revert st' c.
  exec; intros st' c' H; inversion H; subst; reflexivity.
Qed.

Lemma returned_client_session_is_saved_witness :
  file (fs (snd (get_client Sample.w_creds Sample.st_stale)))
  = Some (export_session_string Sample.alice).
Proof.
  apply (returned_client_session_is_saved Sample.w_creds Sample.st_stale
           (snd (get_client Sample.w_creds Sample.st_stale)) Sample.alice).
  reflexivity.
Defined.

Lemma restore_session_ok (w : World) (st : State) (c : Client) (raw : str) :
  file (fs st) = Some raw -> read_ok (fs st) = true -> strip raw <> [] ->
  login_session (atproto w) (strip raw) = inl c -> write_ok (fs st) = true ->
  restore_session w st =
    (Ret (Some c),
     {| fs := set_file (Some (export_session_string c)) (fs st);
        trace := trace st ++ [EvRemote (LoginSession (strip raw)) true] |}).
Proof.
  destruct st as [[f r wr] tr]. simpl. intros -> -> Hne Hl ->.
  unfold_session. simpl.
  destruct (strip raw) as [|c0 s0] eqn:E; [congruence|]. simpl.
  rewrite Hl. reflexivity.
Qed.


Lemma restore_session_none (w : World) (st : State) :
  no_valid_session w st ->
  exists st1,
    restore_session w st = (Ret None, st1)
    /\ write_ok (fs st1) = write_ok (fs st)
    /\ stderr (trace st1) = stderr (trace st)
    /\ getenvs (trace st1) = getenvs (trace st)
    /\ password_logins (trace st1) = password_logins (trace st).
Proof.
  destruct st as [[f r wr] tr]. unfold no_valid_session. simpl.
  intros [-> | (raw & -> & H)].
  - eexists. split; [reflexivity|]. repeat split.
  - unfold_session. simpl.
    destruct r; simpl.
    2:{ eexists. split; [reflexivity|]. repeat split. }
    destruct (strip raw) as [|c0 s0] eqn:E; simpl.
    { eexists. split; [reflexivity|]. repeat split. }
    destruct H as [H | [H | [e H]]]; try discriminate.
    rewrite H. simpl.
    eexists. split; [reflexivity|]. simpl.
    unfold stderr, getenvs, password_logins, calls.
    rewrite !flat_map_app. simpl. rewrite !app_nil_r.
    repeat split. rewrite filter_app. simpl. apply app_nil_r.
Qed.

Lemma fresh_login_missing (w : World) (st : State) :
  credentials_missing w ->
  fresh_login w st =
    (Exit 1, emit [EvGetenv BLUESKY_HANDLE; EvGetenv BLUESKY_APP_PASSWORD;
                   EvEcho true MSG_CREDENTIALS] st).
Proof.
  unfold credentials_missing. intros H.
  unfold_session. simpl. unfold emit. simpl.
  destruct H as [H|H]; rewrite H; rewrite ?orb_true_r; norm_trace; reflexivity.
Qed.

Lemma fresh_login_present (w : World) (st : State) (h p : str) :
  environ w BLUESKY_HANDLE = Some h -> environ w BLUESKY_APP_PASSWORD = Some p ->
  h <> [] -> p <> [] ->
  fresh_login w st =
    match login_password (atproto w) h p with
    | inl c =>
        if write_ok (fs st)
        then (Ret c,
              {| fs := set_file (Some (export_session_string c)) (fs st);
                 trace := trace st ++
                   [EvGetenv BLUESKY_HANDLE; EvGetenv BLUESKY_APP_PASSWORD;
                    EvRemote (LoginPassword h p) true;
                    EvEcho true (CHECK_MARK :: lit " Logged in as @" ++ me_handle c
                                 ++ lit " (session cached)")] |})
        else (Raise IOError,
              emit [EvGetenv BLUESKY_HANDLE; EvGetenv BLUESKY_APP_PASSWORD;
                    EvRemote (LoginPassword h p) true] st)
    | inr (AtProtocolError msg) =>
        (Exit 1,
         emit [EvGetenv BLUESKY_HANDLE; EvGetenv BLUESKY_APP_PASSWORD;
               EvRemote (LoginPassword h p) false;
               EvEcho true (lit "Login failed: " ++ msg)] st)
    | inr e =>
        (Raise e,
         emit [EvGetenv BLUESKY_HANDLE; EvGetenv BLUESKY_APP_PASSWORD;
               EvRemote (LoginPassword h p) false] st)
    end.
Proof.
  intros Hh Hp Hhne Hpne.
  destruct h as [|h0 h']; [congruence|]. destruct p as [|p0 p']; [congruence|].
  destruct st as [[f r wr] tr].
  unfold_session. simpl. rewrite Hh, Hp. simpl. unfold emit.
  destruct (login_password (atproto w) (h0 :: h') (p0 :: p')) as [c|[msg| | |]];
    simpl; [destruct wr|..]; norm_trace; reflexivity.
Qed.

Lemma get_client_restored (w : World) (st : State) (c : Client) (raw : str) :
  file (fs st) = Some raw -> read_ok (fs st) = true -> strip raw <> [] ->
  login_session (atproto w) (strip raw) = inl c -> write_ok (fs st) = true ->
  get_client w st =
    (Ret c,
     {| fs := set_file (Some (export_session_string c)) (fs st);
        trace := trace st ++ [EvRemote (LoginSession (strip raw)) true] |}).
Proof.
  intros. unfold get_client.
  erewrite bind_Ret by (eapply restore_session_ok; eassumption).
  reflexivity.
Qed.

Lemma observe_app (tr evs : list Event) :
  calls (tr ++ evs) = calls tr ++ calls evs
  /\ getenvs (tr ++ evs) = getenvs tr ++ getenvs evs
  /\ stdout (tr ++ evs) = stdout tr ++ stdout evs
  /\ stderr (tr ++ evs) = stderr tr ++ stderr evs
  /\ password_logins (tr ++ evs) = password_logins tr ++ password_logins evs
  /\ content_calls (tr ++ evs) = content_calls tr ++ content_calls evs.
Proof.
  unfold password_logins, content_calls, calls, getenvs, stdout, stderr.
  rewrite !flat_map_app, !filter_app. repeat split.
Qed.


Lemma getenvs_app tr evs : getenvs (tr ++ evs) = getenvs tr ++ getenvs evs.
Proof. apply observe_app. Qed.

Lemma stdout_app tr evs : stdout (tr ++ evs) = stdout tr ++ stdout evs.
Proof. apply observe_app. Qed.

Lemma stderr_app tr evs : stderr (tr ++ evs) = stderr tr ++ stderr evs.
Proof. apply observe_app. Qed.

Lemma password_logins_app tr evs :
  password_logins (tr ++ evs) = password_logins tr ++ password_logins evs.
Proof. apply observe_app. Qed.

Lemma content_calls_app tr evs :
  content_calls (tr ++ evs) = content_calls tr ++ content_calls evs.
Proof. apply observe_app. Qed.

(** ** The cached session is enough (claim C4) *)

(** C4.  When the cached session can be restored, [get_client] returns the
    restored client and never looks at the environment: two worlds with the
    same library and any two environments give the same result and the same
    final state, no variable is read and no credential login is made. *)
Theorem valid_session_ignores_environment (w1 w2 : World) (st : State) (c : Client) :
  atproto w1 = atproto w2 ->
  restorable w1 st c ->
  get_client w1 st = get_client w2 st
  /\ fst (get_client w1 st) = Ret c
  /\ getenvs (trace (snd (get_client w1 st))) = getenvs (trace st)
  /\ password_logins (trace (snd (get_client w1 st))) = password_logins (trace st).
Proof.
  intros Hw (raw & Hf & Hr & Hne & Hl & Hwr).
  assert (Hl2 : login_session (atproto w2) (strip raw) = inl c) by now rewrite <- Hw.
  rewrite (get_client_restored w1 st c raw Hf Hr Hne Hl Hwr).
  rewrite (get_client_restored w2 st c raw Hf Hr Hne Hl2 Hwr).
  simpl. rewrite getenvs_app, password_logins_app. simpl.
  rewrite !app_nil_r. repeat split.
Qed.

Lemma valid_session_ignores_environment_witness :
  get_client Sample.w_creds Sample.st_valid = get_client Sample.w_nocreds Sample.st_valid
  /\ fst (get_client Sample.w_creds Sample.st_valid) = Ret Sample.alice.
Proof.
  assert (H : restorable Sample.w_creds Sample.st_valid Sample.alice).
  { exists (lit "alice:session:1" ++ NL).
    repeat split; try reflexivity. vm_compute. discriminate. }
  destruct (valid_session_ignores_environment Sample.w_creds Sample.w_nocreds
              Sample.st_valid Sample.alice eq_refl H) as (H1 & H2 & _).
  split; [exact H1 | exact H2].
Defined.

(** ** Missing credentials (claim C5) *)



(** ** The fallback to a fresh login (claim C1) *)

Lemma truthy_Some (o : option str) :
  truthy o = true -> exists s, o = Some s /\ s <> [] /\ or_str o [] = s.
Proof.
  destruct o as [[|c s]|]; simpl; try discriminate.
  intros _. exists (c :: s). repeat split. discriminate.
Qed.

Lemma not_both_truthy (w : World) :
  truthy (environ w BLUESKY_HANDLE) && truthy (environ w BLUESKY_APP_PASSWORD) = false ->
  credentials_missing w.
Proof.
  unfold credentials_missing. intros H. apply andb_false_iff in H. exact H.
Qed.




(** ** The [thread] command (claim C10) *)

Lemma for_each_show_reply (l : list ThreadNode) (st : State) :
  for_each l Cmd.show_reply st =
    (Ret tt,
     emit (map (EvEcho false)
             (flat_map (fun p => [reply_line p; []])
                (flat_map (fun r => match node_post r with Some p => [p] | None => [] end) l)))
          st).
Proof.
  revert st. induction l as [|r l IH]; intros st; simpl.
  - now rewrite emit_nil.
  - unfold bind. unfold Cmd.show_reply at 1.
    destruct (node_post r) as [p|]; simpl.
    + rewrite IH. unfold emit. simpl. rewrite <- !app_assoc. reflexivity.
    + rewrite IH. reflexivity.
Qed.

Lemma firstn_app_long {A} (n : nat) (l more : list A) :
  (n <= List.length l)%nat -> firstn n (l ++ more) = firstn n l.
Proof.
  intros H. rewrite firstn_app.
  replace (n - List.length l)%nat with 0%nat by lia.
  simpl. apply app_nil_r.
Qed.

Lemma shown_replies_le_10 (replies : list ThreadNode) :
  (List.length (shown_replies replies) <= 10)%nat.
Proof.
  unfold shown_replies.
  assert (H : forall l : list ThreadNode,
             (List.length (flat_map (fun r => match node_post r with
                                              | Some p => [p] | None => [] end) l)
              <= List.length l)%nat).
  { induction l as [|r l IH]; simpl; [lia|].
    rewrite length_app. destruct (node_post r); simpl; lia. }
  etransitivity; [apply H|]. apply firstn_le_length.
Qed.

Lemma thread_run
    (w : World) (post_uri : str) (st st1 : State) (c : Client)
    (p : PostView) (parent : option ThreadNode) (replies : option (list ThreadNode)) :
  get_client w st = (Ret c, st1) ->
  get_post_thread (atproto w) c post_uri = inl (ThreadViewPost p parent replies) ->
  Cmd.thread w post_uri st =
    (Ret tt,
     emit (EvRemote (GetPostThread post_uri) true ::
           map (EvEcho false)
             (parent_lines parent ++ post_lines p
              ++ replies_lines (node_replies (ThreadViewPost p parent replies))))
          st1).
Proof.
  intros Hc Ht. pose (rs := node_replies (ThreadViewPost p parent replies)).
  unfold Cmd.thread. rewrite (bind_Ret _ _ _ _ _ Hc).
    unfold try_AtProtocolError, remote, bind at 1 2. rewrite Ht.
    rewrite log_emit. unfold ret at 1.
    unfold getattr_post, echo. cbn [node_parent node_post].
    assert (Hpar : forall st0,
      (match parent with
       | Some par =>
           log (EvEcho false (lit "--- Parent ---")) ;;;
           (match node_post par with
            | Some p0 => log (EvEcho false (lit "@" ++ handle (author p0) ++ lit ": "
                                            ++ text (record p0)))
            | None => ret tt
            end) ;;;
           log (EvEcho false [])
       | None => ret tt
       end) st0 = (Ret tt, emit (map (EvEcho false) (parent_lines parent)) st0)).
    { intros st0. destruct parent as [par|]; simpl.
      - destruct (node_post par); unfold bind, log, ret, emit; simpl;
          rewrite <- ?app_assoc; reflexivity.
      - unfold ret. now rewrite emit_nil. }
    rewrite (bind_Ret _ _ _ _ _ (Hpar _)).
    subst rs. unfold bind, log, ret. cbn [fst snd].
    destruct (node_replies (ThreadViewPost p parent replies)) as [|r0 rs'].
    + unfold emit. simpl. rewrite !map_app. simpl.
      rewrite <- !app_assoc. simpl. reflexivity.
    + rewrite for_each_show_reply.
      unfold replies_lines, shown_replies, emit. simpl. rewrite !map_app. simpl.
      rewrite <- !app_assoc. simpl. reflexivity.
Qed.

(** C10.  Once the client is obtained and the library returns a thread view,
    [thread] prints the parent section, the post section and then, when there
    are replies, one entry for each of the first ten replies that carries a
    post, in the order of the list, with the text cut to its first 100
    characters.  At most ten replies are shown, and what comes after the
    tenth has no effect on the output. *)
Theorem thread_shows_first_ten_replies
    (w : World) (post_uri : str) (st st1 : State) (c : Client)
    (p : PostView) (parent : option ThreadNode) (replies : option (list ThreadNode)) :
  get_client w st = (Ret c, st1) ->
  get_post_thread (atproto w) c post_uri = inl (ThreadViewPost p parent replies) ->
  let rs := node_replies (ThreadViewPost p parent replies) in
  Cmd.thread w post_uri st =
    (Ret tt,
     emit (EvRemote (GetPostThread post_uri) true ::
           map (EvEcho false) (parent_lines parent ++ post_lines p ++ replies_lines rs))
          st1)
  /\ (List.length (shown_replies rs) <= 10)%nat
  /\ (forall q, In q (shown_replies rs) ->
        (List.length (firstn 100 (text (record q))) <= 100)%nat)
  /\ (forall more, (10 <= List.length rs)%nat ->
        replies_lines (rs ++ more) = replies_lines rs).
Proof.
  intros Hc Ht rs. split; [|split; [|split]].
  - exact (thread_run w post_uri st st1 c p parent replies Hc Ht).
  - apply shown_replies_le_10.
  - intros q _. apply firstn_le_length.
  - intros more Hlen. unfold replies_lines, shown_replies.
    rewrite (firstn_app_long 10 rs more Hlen).
    destruct rs as [|r0 rs']; [simpl in Hlen; lia|]. reflexivity.
Qed.

Lemma thread_shows_first_ten_replies_witness :
  exists st1,
    Cmd.thread Sample.w_creds (lit "at://x") Sample.st_valid =
      (Ret tt,
       emit (EvRemote (GetPostThread (lit "at://x")) true ::
             map (EvEcho false)
               (parent_lines None
                ++ post_lines (Sample.mk_post (lit "carol.test") (lit "hello"))
                ++ replies_lines (NotFoundPost (lit "at://gone") :: Sample.twelve_replies)))
            st1)
    /\ List.length (shown_replies (NotFoundPost (lit "at://gone") :: Sample.twelve_replies))
       = 9%nat.
Proof.
  eexists. split; [|reflexivity].
  apply (thread_shows_first_ten_replies Sample.w_creds (lit "at://x") Sample.st_valid
           _ Sample.alice (Sample.mk_post (lit "carol.test") (lit "hello")) None
           (Some (NotFoundPost (lit "at://gone") :: Sample.twelve_replies))).
  - reflexivity.
  - reflexivity.
Defined.

(** ** Requests made by the commands (claim C3) *)

Lemma get_client_no_content_calls (w : World) (st : State) :
  content_calls (trace (snd (get_client w st))) = content_calls (trace st).
Proof.
  destruct st as [[f r wr] tr].
  exec; rewrite ?content_calls_app; simpl; rewrite ?app_nil_r; reflexivity.
Qed.

(** A guarded call into the library, by the answer of the library. *)
Lemma try_remote {A B} (call : Call) (r : res A) (k : A -> M B) (h : str -> M B)
    (st : State) :
  try_AtProtocolError (x <- remote call r ;; k x) h st =
    match r with
    | inl a => try_AtProtocolError (k a) h (emit [EvRemote call true] st)
    | inr (AtProtocolError msg) => h msg (emit [EvRemote call false] st)
    | inr e => (Raise e, emit [EvRemote call false] st)
    end.
Proof.
  unfold try_AtProtocolError, remote, bind, log, ret, raise, emit.
  destruct r as [a|[msg| | |]]; reflexivity.
Qed.

Lemma for_each_echo {A} (f : A -> list str) (body : A -> M unit) :
  (forall x st, body x st = (Ret tt, emit (map (EvEcho false) (f x)) st)) ->
  forall l st,
    for_each l body st = (Ret tt, emit (map (EvEcho false) (flat_map f l)) st).
Proof.
  intros Hb. induction l as [|x l IH]; intros st; simpl.
  - now rewrite emit_nil.
  - unfold bind. rewrite Hb, IH, emit_emit, map_app. reflexivity.
Qed.

Lemma calls_echo (b : bool) (l : list str) : calls (map (EvEcho b) l) = [].
Proof. induction l; simpl; auto. Qed.

Lemma content_calls_echo (b : bool) (l : list str) :
  content_calls (map (EvEcho b) l) = [].
Proof. unfold content_calls. now rewrite calls_echo. Qed.

Ltac run_body :=
  unfold try_AtProtocolError, getattr_post, bind, echo, echo_err, log, ret, raise,
    sys_exit, emit; simpl.

Lemma content_calls_remote c ok l :
  content_calls (EvRemote c ok :: l) = (if is_login c then [] else [c]) ++ content_calls l.
Proof. unfold content_calls. simpl. now destruct (is_login c). Qed.

Lemma content_calls_echo_cons b s l : content_calls (EvEcho b s :: l) = content_calls l.
Proof. reflexivity. Qed.

Lemma content_calls_getenv_cons n l : content_calls (EvGetenv n :: l) = content_calls l.
Proof. reflexivity. Qed.

Lemma content_calls_nil : content_calls [] = [].
Proof. reflexivity. Qed.

Create Rewrite HintDb calls_db.
#[local] Hint Rewrite content_calls_app content_calls_echo content_calls_remote
  content_calls_echo_cons content_calls_getenv_cons content_calls_nil : calls_db.

Ltac count_calls Hcc :=
  simpl; autorewrite with calls_db; simpl;
  rewrite ?app_nil_r, ?Hcc; rewrite <- ?app_assoc; reflexivity.

Lemma requests_made (w : World) (c : Command) (st st1 : State) (client : Client) :
  too_long c = false ->
  get_client w st = (Ret client, st1) ->
  content_calls (trace (snd (cli w c st))) =
    content_calls (trace st) ++ requests w client c.
Proof.
  intros Hlen Hc.
  assert (Hcc : content_calls (trace st1) = content_calls (trace st)).
  { rewrite <- (get_client_no_content_calls w st). now rewrite Hc. }
  destruct c as [t | n u | u t | u | u | q n | h | | ]; simpl in Hlen; simpl cli; cbn [requests].
  - (* post *)
    unfold Cmd.post. rewrite Hlen.
    rewrite (bind_Ret _ _ st tt st eq_refl), (bind_Ret _ _ _ _ _ Hc), try_remote.
    destruct (send_post (atproto w) client t None) as [a|[msg| | |]];
      run_body; count_calls Hcc.
  - (* timeline *)
    unfold Cmd.timeline. rewrite (bind_Ret _ _ _ _ _ Hc), try_remote.
    destruct (get_timeline (atproto w) client n) as [feed|[msg| | |]];
      [|run_body; count_calls Hcc ..].
    unfold try_AtProtocolError, bind at 1. unfold echo at 1. rewrite log_emit.
    erewrite (for_each_echo (fun item => [format_post w item u; []]))
      by (intros; run_body; rewrite <- ?app_assoc; reflexivity).
    rewrite !emit_emit. unfold emit. count_calls Hcc.
  - (* reply *)
    unfold Cmd.reply. rewrite Hlen.
    rewrite (bind_Ret _ _ st tt st eq_refl), (bind_Ret _ _ _ _ _ Hc), try_remote.
    destruct (get_post_thread (atproto w) client u) as [[p par rs|x|x]|[msg| | |]];
      try (run_body; count_calls Hcc).
    run_body. unfold reply_ref_of.
    destruct (send_post (atproto w) client t _) as [a|[msg| | |]];
      count_calls Hcc.
  - (* like *)
    unfold Cmd.like. rewrite (bind_Ret _ _ _ _ _ Hc), try_remote.
    destruct (get_post_thread (atproto w) client u) as [[p par rs|x|x]|[msg| | |]];
      try (run_body; count_calls Hcc).
    run_body.
    destruct (like_post (atproto w) client (uri p) (cid p)) as [a|[msg| | |]];
      count_calls Hcc.
  - (* thread *)
    destruct (get_post_thread (atproto w) client u) as [[p par rs|x|x]|[msg| | |]] eqn:Et;
      [ rewrite (thread_run w u st st1 client p par rs Hc Et); unfold emit;
        count_calls Hcc
      | unfold Cmd.thread; rewrite (bind_Ret _ _ _ _ _ Hc), try_remote, Et;
        run_body; count_calls Hcc .. ].
  - (* search *)
    unfold Cmd.search. rewrite (bind_Ret _ _ _ _ _ Hc), try_remote.
    destruct (search_posts (atproto w) client q n) as [posts|[msg| | |]];
      [|run_body; count_calls Hcc ..].
    unfold try_AtProtocolError, bind at 1. unfold echo at 1. rewrite log_emit.
    erewrite (for_each_echo (fun p =>
                [lit "@" ++ handle (author p) ++ lit ": "
                 ++ slice_to 100 (text (record p)) ++ lit "...";
                 lit "  " ++ [HEART] ++ lit " " ++ str_of_Z (or0 (like_count p))
                 ++ lit "  URI: " ++ uri p;
                 []]))
      by (intros; run_body; rewrite <- ?app_assoc; reflexivity).
    rewrite !emit_emit. unfold emit. count_calls Hcc.
  - (* profile *)
    unfold Cmd.profile. rewrite (bind_Ret _ _ _ _ _ Hc), try_remote.
    destruct (get_profile (atproto w) client _) as [r|[msg| | |]];
      [|run_body; count_calls Hcc ..].
    run_body.
    destruct (truthy (p_display_name r)), (truthy (p_description r));
      count_calls Hcc.
  - (* whoami *)
    unfold Cmd.whoami. rewrite (bind_Ret _ _ _ _ _ Hc).
    unfold SESSION_FILE_exists. run_body.
    destruct (file (fs st1)); count_calls Hcc.
  - (* logout *)
    clear Hc Hcc. destruct st as [[[s|] r0 wr] tr];
      unfold Cmd.logout, clear_session, SESSION_FILE_exists, SESSION_FILE_unlink;
      run_body; autorewrite with calls_db; simpl; now rewrite app_nil_r.
Qed.


(** C3, as the code has it.  A command that passed its local validation and
    obtained its client makes the content requests listed by [requests] and
    no other: exactly one for [post], [timeline], [thread], [search] and
    [profile]; for [reply] and [like] the thread lookup and then, when the
    lookup returned a thread view with a post, the posting or the like, two
    requests in all. *)
Theorem content_requests_per_command
    (w : World) (c : Command) (st st1 : State) (client : Client) :
  too_long c = false ->
  get_client w st = (Ret client, st1) ->
  content_calls (trace (snd (cli w c st))) =
    content_calls (trace st) ++ requests w client c
  /\ List.length (requests w client c) =
       match c with
       | Post _ | Timeline _ _ | Thread _ | Search _ _ | Profile _ => 1%nat
       | Reply u _ | LikeCmd u =>
           if has_post (get_post_thread (atproto w) client u) then 2%nat else 1%nat
       | Whoami | Logout => 0%nat
       end.
Proof.
  intros Hlen Hc. split; [exact (requests_made w c st st1 client Hlen Hc)|].
  destruct c as [t | n u | u t | u | u | q n | h | | ]; simpl; try reflexivity;
    destruct (get_post_thread (atproto w) client u) as [[p par rs|x|x]|e]; reflexivity.
Qed.

Lemma content_requests_per_command_witness :
  content_calls (trace (snd (cli Sample.w_creds (Timeline 20 false) Sample.st_valid))) =
    [GetTimeline 20]
  /\ List.length (requests Sample.w_creds Sample.alice (Timeline 20 false)) = 1%nat.
Proof.
  destruct (content_requests_per_command Sample.w_creds (Timeline 20 false)
              Sample.st_valid (snd (get_client Sample.w_creds Sample.st_valid))
              Sample.alice eq_refl eq_refl) as [H1 H2].
  split; [exact H1 | exact H2].
Defined.

(** C3, as stated, fails for [like] and [reply]: each makes two content
    requests after obtaining the client, the thread lookup and then the like
    or the posting. *)
Lemma like_and_reply_issue_two_requests :
  content_calls (trace (snd (cli Sample.w_creds (LikeCmd (lit "at://x")) Sample.st_valid)))
    = [GetPostThread (lit "at://x");
       Like (lit "at://carol.test/app.bsky.feed.post/1") (lit "bafy1")]
  /\ List.length
       (content_calls (trace (snd (cli Sample.w_creds (LikeCmd (lit "at://x"))
                                       Sample.st_valid)))) <> 1%nat
  /\ List.length
       (content_calls (trace (snd (cli Sample.w_creds (Reply (lit "at://x") (lit "yo"))
                                       Sample.st_valid)))) <> 1%nat
  /\ fst (cli Sample.w_creds (LikeCmd (lit "at://x")) Sample.st_valid) = Ret tt.
Proof.
  vm_compute. repeat split; discriminate.
Qed.

(** ** Exit codes (claim C8) *)

Lemma no_failure_app evs1 evs2 :
  no_failure (evs1 ++ evs2) = no_failure evs1 && no_failure evs2.
Proof. apply forallb_app. Qed.

Lemma sound_ret {A} (a : A) : sound (ret a).
Proof. intros st. exists []. simpl. now rewrite app_nil_r. Qed.

Lemma sound_raise {A} (e : exn) : sound (@raise A e).
Proof. intros st. exists []. simpl. now rewrite app_nil_r. Qed.

Lemma sound_sys_exit {A} : sound (@sys_exit A 1).
Proof. intros st. exists []. simpl. now rewrite app_nil_r. Qed.

Lemma sound_bind {A B} (m : M A) (k : A -> M B) :
  sound m -> (forall a, sound (k a)) -> sound (bind m k).
Proof.
  intros Hm Hk st. destruct (Hm st) as (evs1 & Ht1 & Hp1).
  unfold bind. destruct (m st) as [[a|n|e] st1]; simpl in *.
  - destruct (Hk a st1) as (evs2 & Ht2 & Hp2).
    exists (evs1 ++ evs2). rewrite Ht2, Ht1, app_assoc. split; [reflexivity|].
    destruct (fst (k a st1)); simpl in *; auto.
    rewrite no_failure_app, Hp1, Hp2. reflexivity.
  - exists evs1. auto.
  - exists evs1. auto.
Qed.

Lemma sound_echo (b : bool) (s : str) : sound (log (EvEcho b s)).
Proof. intros st. exists [EvEcho b s]. split; reflexivity. Qed.

Lemma sound_getenv (w : World) (name : str) : sound (getenv w name).
Proof.
  intros st. exists [EvGetenv name]. split; reflexivity.
Qed.

Lemma sound_remote {A} (call : Call) (r : res A) : sound (remote call r).
Proof.
  intros st. exists [EvRemote call (is_inl r)].
  destruct r as [a|e]; simpl; split; try reflexivity.
  now destruct call.
Qed.

Lemma sound_exists : sound SESSION_FILE_exists.
Proof. intros st. exists []. simpl. now rewrite app_nil_r. Qed.

Lemma sound_save_session (c : Client) : sound (save_session c).
Proof.
  intros st. exists []. unfold save_session, SESSION_FILE_write_text.
  destruct (write_ok (fs st)); simpl; now rewrite app_nil_r.
Qed.

(** The handlers of the commands: a message on the error stream, then
    [sys.exit(1)]. *)
Lemma sound_try_AtProtocolError {A} (body : M A) (f : str -> str) :
  sound body ->
  sound (try_AtProtocolError body (fun e => echo_err (f e) ;;; sys_exit 1)).
Proof.
  intros Hb st. destruct (Hb st) as (evs & Ht & Hp).
  unfold try_AtProtocolError.
  destruct (body st) as [[a|n|[msg| | |]] st1]; simpl in *; try (exists evs; now auto).
  exists (evs ++ [EvEcho true (f msg)]). rewrite Ht, app_assoc. auto.
Qed.


Lemma sound_getattr_post (n : ThreadNode) : sound (getattr_post n).
Proof.
  unfold getattr_post. destruct (node_post n); [apply sound_ret | apply sound_raise].
Qed.

Ltac close_trace :=
  simpl; first [ rewrite <- ?app_assoc; reflexivity | symmetry; apply app_nil_r ].

Lemma sound_restore_session (w : World) : sound (restore_session w).
Proof.
  intros [[f r wr] tr].
  exec; eexists; (split; [close_trace | simpl; auto]).
Qed.

Lemma sound_fresh_login (w : World) : sound (fresh_login w).
Proof.
  unfold fresh_login.
  apply sound_bind; [apply sound_getenv | intros h].
  apply sound_bind; [apply sound_getenv | intros p].
  destruct (negb (truthy h) || negb (truthy p)).
  - apply sound_bind; [apply sound_echo | intros _; apply sound_sys_exit].
  - apply (sound_try_AtProtocolError _ (fun e => lit "Login failed: " ++ e)).
    apply sound_bind; [apply sound_remote | intros c].
    apply sound_bind; [apply sound_save_session | intros _].
    apply sound_bind; [apply sound_echo | intros _; apply sound_ret].
Qed.

Lemma sound_get_client (w : World) : sound (get_client w).
Proof.
  unfold get_client. apply sound_bind; [apply sound_restore_session|].
  intros [c|]; [apply sound_ret | apply sound_fresh_login].
Qed.

Create HintDb sound_db.
#[local] Hint Resolve sound_ret sound_raise sound_sys_exit sound_echo sound_getenv
  sound_remote sound_exists sound_save_session sound_getattr_post sound_get_client
  : sound_db.







(** * Further properties of the code *)

(** ** [strip] and the session file *)













(** ** More on [get_client] *)



(** X4.  In every world [get_client] calls the library at most twice: at
    most one restore of the cached session, then at most one credential
    login, in that order, and never a content request. *)
Theorem get_client_logs_in_at_most_twice (w : World) (st : State) :
  exists evs,
    trace (snd (get_client w st)) = trace st ++ evs
    /\ login_shape (calls evs) = true
    /\ content_calls evs = [].
Proof.
  destruct st as [[f r wr] tr].
  exec; eexists; (split; [close_trace | split; reflexivity]).
Qed.

(** X5.  [get_client] never writes to the standard output, and writes at
    most one line to the error stream, so the output of a command is never
    mixed with login messages. *)
Theorem get_client_keeps_stdout_clean (w : World) (st : State) :
  exists evs,
    trace (snd (get_client w st)) = trace st ++ evs
    /\ stdout evs = []
    /\ (List.length (stderr evs) <= 1)%nat.
Proof.
  destruct st as [[f r wr] tr].
  exec; eexists; (split; [close_trace | split; [reflexivity | simpl; lia]]).
Qed.

Lemma restore_session_Some_inv (w : World) (st st1 : State) (c : Client) :
  restore_session w st = (Ret (Some c), st1) ->
  exists raw, file (fs st) = Some raw /\ strip raw <> []
              /\ login_session (atproto w) (strip raw) = inl c.
Proof.
  destruct st as [[f r wr] tr]. revert st1 c.
  exec; intros st1 c' H; inversion H; subst.
  eexists. split; [reflexivity|]. split; congruence.
Qed.

Lemma fresh_login_Ret_inv (w : World) (st st' : State) (c : Client) :
  fresh_login w st = (Ret c, st') ->
  exists h p, environ w BLUESKY_HANDLE = Some h
              /\ environ w BLUESKY_APP_PASSWORD = Some p
              /\ h <> [] /\ p <> []
              /\ login_password (atproto w) h p = inl c.
Proof.
  intros H.
  destruct (truthy (environ w BLUESKY_HANDLE) && truthy (environ w BLUESKY_APP_PASSWORD))
    eqn:Hhp.
  - apply andb_true_iff in Hhp. destruct Hhp as [Hh Hp].
    destruct (truthy_Some _ Hh) as (hs & Eh & Hhne & _).
    destruct (truthy_Some _ Hp) as (ps & Ep & Hpne & _).
    exists hs, ps. repeat split; auto.
    rewrite (fresh_login_present w st hs ps Eh Ep Hhne Hpne) in H.
    destruct (login_password (atproto w) hs ps) as [c0|[msg| | |]]; try discriminate.
    destruct (write_ok (fs st)); try discriminate. congruence.
  - rewrite (fresh_login_missing w st (not_both_truthy w Hhp)) in H. discriminate.
Qed.

(** X6.  A client returned by [get_client] is one the library handed out:
    either for the stripped, non-empty contents of the session file, or for
    the two non-empty credentials of the environment. *)
Theorem returned_client_is_authenticated (w : World) (st st' : State) (c : Client) :
  get_client w st = (Ret c, st') ->
  (exists raw, file (fs st) = Some raw /\ strip raw <> []
               /\ login_session (atproto w) (strip raw) = inl c)
  \/ (exists h p, environ w BLUESKY_HANDLE = Some h
                  /\ environ w BLUESKY_APP_PASSWORD = Some p
                  /\ h <> [] /\ p <> []
                  /\ login_password (atproto w) h p = inl c).
Proof.
  unfold get_client, bind. intros H.
  destruct (restore_session w st) as [[[c0|]|n|e] st1] eqn:Hr; try discriminate.
  - left. inversion H; subst. exact (restore_session_Some_inv w st st' c Hr).
  - right. exact (fresh_login_Ret_inv w st1 st' c H).
Qed.

Lemma returned_client_is_authenticated_witness :
  (exists raw, file (fs Sample.st_stale) = Some raw /\ strip raw <> []
               /\ login_session (atproto Sample.w_creds) (strip raw) = inl Sample.alice)
  \/ (exists h p, environ Sample.w_creds BLUESKY_HANDLE = Some h
                  /\ environ Sample.w_creds BLUESKY_APP_PASSWORD = Some p
                  /\ h <> [] /\ p <> []
                  /\ login_password (atproto Sample.w_creds) h p = inl Sample.alice).
Proof.
  apply (returned_client_is_authenticated Sample.w_creds Sample.st_stale
           (snd (get_client Sample.w_creds Sample.st_stale)) Sample.alice).
  reflexivity.
Defined.



Lemma restore_session_None_fs (w : World) (st st1 : State) :
  restore_session w st = (Ret None, st1) ->
  file (fs st1) = None \/ fs st1 = fs st.
Proof.
  destruct st as [[f r wr] tr]. revert st1.
  exec; intros st1 H; inversion H; subst; simpl; auto.
Qed.





(** X9.  An exception of the credential login that is not an
    [AtProtocolError] is not handled by [get_client]: it propagates, and
    nothing is printed on the error stream. *)
Theorem other_login_exception_propagates
    (w : World) (st : State) (h p : str) (e : exn) :
  no_valid_session w st ->
  environ w BLUESKY_HANDLE = Some h -> environ w BLUESKY_APP_PASSWORD = Some p ->
  h <> [] -> p <> [] ->
  login_password (atproto w) h p = inr e -> is_AtProtocolError e = false ->
  exists st',
    get_client w st = (Raise e, st')
    /\ stderr (trace st') = stderr (trace st)
    /\ (file (fs st') = None \/ fs st' = fs st).
Proof.
  intros Hs Hh Hp Hhne Hpne Hl He.
  destruct (restore_session_none w st Hs) as (st1 & Hr & _ & Herr & _ & Hpw).
  pose proof (restore_session_None_fs w st st1 Hr) as Hfs.
  eexists. split.
  - unfold get_client. rewrite (bind_Ret _ _ _ _ _ Hr).
    rewrite (fresh_login_present w st1 h p Hh Hp Hhne Hpne), Hl.
    destruct e; try discriminate; reflexivity.
  - unfold emit. simpl. rewrite stderr_app, Herr. simpl.
    rewrite app_nil_r. split; [reflexivity | exact Hfs].
Qed.

Lemma other_login_exception_propagates_witness :
  exists st',
    get_client (Sample2.alice_creds Sample2.lib_broken_login) Sample.st_none
    = (Raise OtherException, st')
    /\ stderr (trace st') = [].
Proof.
  destruct (other_login_exception_propagates
              (Sample2.alice_creds Sample2.lib_broken_login) Sample.st_none
              (lit "alice.bsky.social") (lit "app-pw") OtherException)
    as (st' & H1 & H2 & _); try reflexivity; try discriminate.
  - left. reflexivity.
  - exists st'. split; [exact H1 | exact H2].
Defined.




(** ** More on the commands *)

Ltac enter_command Hlen Hc :=
  unfold Cmd.post, Cmd.timeline, Cmd.reply, Cmd.like, Cmd.thread, Cmd.search,
    Cmd.profile;
  rewrite ?Hlen; rewrite ?(bind_Ret _ _ _ tt _ eq_refl);
  rewrite (bind_Ret _ _ _ _ _ Hc), try_remote.

(** X12.  A command whose first content request raises an
    [AtProtocolError] stops there: the run after [get_client] is that one
    failed request and one line on the error stream, the prefix of the
    command followed by the message of the library unchanged, and the exit
    code is 1.  Nothing is printed on the standard output. *)
Theorem remote_error_reported_verbatim
    (w : World) (c : Command) (st st1 : State) (client : Client) (msg : str) :
  too_long c = false ->
  get_client w st = (Ret client, st1) ->
  first_error w client c = Some (AtProtocolError msg) ->
  cli w c st =
    (Exit 1,
     emit (map (fun call => EvRemote call false) (requests w client c)
           ++ [EvEcho true (failure_prefix c ++ msg)]) st1).
Proof.
  intros Hlen Hc Herr.
  destruct c as [t | n u | u t | u | u | q n | h | | ];
    simpl in Hlen, Herr; try discriminate; simpl cli; cbn [requests failure_prefix].
  - destruct (send_post (atproto w) client t None) as [a|e] eqn:E;
      simpl in Herr; [discriminate|]. injection Herr as ->.
    enter_command Hlen Hc. rewrite E. run_body. now rewrite <- app_assoc.
  - destruct (get_timeline (atproto w) client n) as [a|e] eqn:E;
      simpl in Herr; [discriminate|]. injection Herr as ->.
    enter_command Hlen Hc. rewrite E. run_body. now rewrite <- app_assoc.
  - destruct (get_post_thread (atproto w) client u) as [a|e] eqn:E;
      simpl in Herr; [discriminate|]. injection Herr as ->.
    enter_command Hlen Hc. rewrite E. run_body. now rewrite <- app_assoc.
  - destruct (get_post_thread (atproto w) client u) as [a|e] eqn:E;
      simpl in Herr; [discriminate|]. injection Herr as ->.
    enter_command Hlen Hc. rewrite E. run_body. now rewrite <- app_assoc.
  - destruct (get_post_thread (atproto w) client u) as [a|e] eqn:E;
      simpl in Herr; [discriminate|]. injection Herr as ->.
    enter_command Hlen Hc. rewrite E. run_body. now rewrite <- app_assoc.
  - destruct (search_posts (atproto w) client q n) as [a|e] eqn:E;
      simpl in Herr; [discriminate|]. injection Herr as ->.
    enter_command Hlen Hc. rewrite E. run_body. now rewrite <- app_assoc.
  - destruct (get_profile (atproto w) client _) as [a|e] eqn:E;
      simpl in Herr; [discriminate|]. injection Herr as ->.
    enter_command Hlen Hc. rewrite E. run_body. now rewrite <- app_assoc.
Qed.

Lemma remote_error_reported_verbatim_witness :
  exists st1,
    cli (Sample2.alice_creds (Sample2.lib_failing (AtProtocolError (lit "RateLimitExceeded"))))
        (Search (lit "cats") 5) Sample.st_valid =
      (Exit 1,
       emit [EvRemote (SearchPosts (lit "cats") 5) false;
             EvEcho true (lit "Failed to search: RateLimitExceeded")] st1).
Proof.
  eexists.
  apply (remote_error_reported_verbatim
           (Sample2.alice_creds (Sample2.lib_failing (AtProtocolError (lit "RateLimitExceeded"))))
           (Search (lit "cats") 5) Sample.st_valid _ Sample.alice
           (lit "RateLimitExceeded")); reflexivity.
Defined.

Lemma len_le_gtb (t : str) (n : Z) : len t <= n -> (len t >? n) = false.
Proof. intros H. rewrite Z.gtb_ltb. apply Z.ltb_ge. exact H. Qed.

(** X13.  When the thread lookup of [reply] or [like] succeeds and the
    posting or the like then raises an [AtProtocolError], the command
    reports that second failure the same way and exits with code 1. *)
Theorem second_request_error_reported
    (w : World) (u t : str) (st st1 : State) (client : Client)
    (p : PostView) (par : option ThreadNode) (rs : option (list ThreadNode)) (msg : str) :
  get_client w st = (Ret client, st1) ->
  get_post_thread (atproto w) client u = inl (ThreadViewPost p par rs) ->
  (len t <= 300 ->
   send_post (atproto w) client t (Some (reply_ref_of p)) = inr (AtProtocolError msg) ->
   Cmd.reply w u t st =
     (Exit 1,
      emit [EvRemote (GetPostThread u) true;
            EvRemote (SendPost t (Some (reply_ref_of p))) false;
            EvEcho true (lit "Failed to reply: " ++ msg)] st1))
  /\ (like_post (atproto w) client (uri p) (cid p) = inr (AtProtocolError msg) ->
      Cmd.like w u st =
        (Exit 1,
         emit [EvRemote (GetPostThread u) true;
               EvRemote (Like (uri p) (cid p)) false;
               EvEcho true (lit "Failed to like: " ++ msg)] st1)).
Proof.
  intros Hc Ht. split.
  - intros Hle Hs.
    assert (Hlen : (len t >? 300) = false) by (apply len_le_gtb; exact Hle).
    enter_command Hlen Hc. rewrite Ht. run_body.
    unfold reply_ref_of in Hs. rewrite Hs. simpl. now rewrite <- !app_assoc.
  - intros Hl. unfold Cmd.like. rewrite (bind_Ret _ _ _ _ _ Hc), try_remote, Ht.
    run_body. rewrite Hl. simpl. now rewrite <- !app_assoc.
Qed.

Lemma second_request_error_reported_witness :
  exists st1,
    Cmd.like (Sample2.alice_creds (Sample2.lib_readonly (AtProtocolError (lit "Forbidden"))))
             (lit "at://x") Sample.st_valid =
      (Exit 1,
       emit [EvRemote (GetPostThread (lit "at://x")) true;
             EvRemote (Like (lit "at://carol.test/app.bsky.feed.post/1") (lit "bafy1")) false;
             EvEcho true (lit "Failed to like: Forbidden")] st1).
Proof.
  eexists.
  apply (second_request_error_reported
           (Sample2.alice_creds (Sample2.lib_readonly (AtProtocolError (lit "Forbidden"))))
           (lit "at://x") (lit "yo") Sample.st_valid _ Sample.alice
           (Sample.mk_post (lit "carol.test") (lit "hello")) None
           (Some (NotFoundPost (lit "at://gone") :: Sample.twelve_replies))
           (lit "Forbidden")); reflexivity.
Defined.

(** X14.  When the thread lookup of [reply] or [like] returns a node without
    a post (not found, or blocked), the command makes no second request and
    prints nothing: the attribute access raises [AttributeError], which no
    handler of the command catches, so the process ends with status 1. *)
Theorem reply_and_like_need_a_post
    (w : World) (u t : str) (st st1 : State) (client : Client) (n : ThreadNode) :
  get_client w st = (Ret client, st1) ->
  get_post_thread (atproto w) client u = inl n ->
  node_post n = None ->
  (len t <= 300 ->
   Cmd.reply w u t st = (Raise AttributeError, emit [EvRemote (GetPostThread u) true] st1))
  /\ Cmd.like w u st = (Raise AttributeError, emit [EvRemote (GetPostThread u) true] st1)
  /\ fst (main w (LikeCmd u) st) = 1.
Proof.
  intros Hc Ht Hn.
  assert (Hl : Cmd.like w u st =
               (Raise AttributeError, emit [EvRemote (GetPostThread u) true] st1)).
  { unfold Cmd.like. rewrite (bind_Ret _ _ _ _ _ Hc), try_remote, Ht.
    unfold try_AtProtocolError, bind, getattr_post. rewrite Hn. reflexivity. }
  split; [|split; [exact Hl|]].
  - intros Hle.
    assert (Hlen : (len t >? 300) = false) by (apply len_le_gtb; exact Hle).
    enter_command Hlen Hc. rewrite Ht.
    unfold try_AtProtocolError, bind, getattr_post. rewrite Hn. reflexivity.
  - unfold main. simpl cli. rewrite Hl. reflexivity.
Qed.

Lemma reply_and_like_need_a_post_witness :
  fst (main (Sample2.alice_creds Sample2.lib_notfound) (LikeCmd (lit "at://x"))
            Sample.st_valid) = 1
  /\ calls (trace (snd (Cmd.like (Sample2.alice_creds Sample2.lib_notfound) (lit "at://x")
                                 Sample.st_valid)))
     = [LoginSession (lit "alice:session:1"); GetPostThread (lit "at://x")].
Proof.
  destruct (reply_and_like_need_a_post (Sample2.alice_creds Sample2.lib_notfound)
              (lit "at://x") (lit "yo") Sample.st_valid
              (snd (get_client (Sample2.alice_creds Sample2.lib_notfound) Sample.st_valid))
              Sample.alice (NotFoundPost (lit "at://x")) eq_refl eq_refl eq_refl)
    as (_ & H2 & H3).
  split; [exact H3|]. rewrite H2. reflexivity.
Defined.

(** X15.  [thread] on a post that is not found or blocked prints the
    [--- Post ---] heading and then raises [AttributeError], uncaught: the
    parent and replies of such a node are guarded with [hasattr], the post
    itself is not. *)
Theorem thread_needs_a_post
    (w : World) (u : str) (st st1 : State) (client : Client) (n : ThreadNode) :
  get_client w st = (Ret client, st1) ->
  get_post_thread (atproto w) client u = inl n ->
  node_post n = None ->
  Cmd.thread w u st =
    (Raise AttributeError,
     emit [EvRemote (GetPostThread u) true; EvEcho false (lit "--- Post ---")] st1).
Proof.
  intros Hc Ht Hn.
  unfold Cmd.thread. rewrite (bind_Ret _ _ _ _ _ Hc), try_remote, Ht.
  destruct n as [p par rs|x|x]; [discriminate| |]; run_body;
    now rewrite <- !app_assoc.
Qed.

Lemma thread_needs_a_post_witness :
  exists st1,
    Cmd.thread (Sample2.alice_creds Sample2.lib_notfound) (lit "at://x") Sample.st_valid =
      (Raise AttributeError,
       emit [EvRemote (GetPostThread (lit "at://x")) true;
             EvEcho false (lit "--- Post ---")] st1).
Proof.
  eexists.
  apply (thread_needs_a_post (Sample2.alice_creds Sample2.lib_notfound) (lit "at://x")
           Sample.st_valid _ Sample.alice (NotFoundPost (lit "at://x")));
    reflexivity.
Defined.

(** X16.  The preview printed by [post] and [reply] is the text itself when
    it has at most 50 characters, and otherwise its first 50 characters
    followed by three dots, 53 characters in all. *)
Theorem preview50_bounds (t : str) :
  preview50 t = (if len t >? 50 then firstn 50 t ++ lit "..." else t)
  /\ len (preview50 t) = (if len t >? 50 then 53 else len t).
Proof.
  unfold preview50, slice_to, len.
  destruct (Z.of_nat (List.length t) >? 50) eqn:E.
  - split; [reflexivity|].
    apply Z.gtb_lt in E.
    rewrite length_app, firstn_length_le by lia. reflexivity.
  - rewrite Z.gtb_ltb in E. apply Z.ltb_ge in E.
    rewrite app_nil_r, firstn_all2 by lia. split; reflexivity.
Qed.

(** X17.  A text of at most 300 characters, the empty text and a text of
    exactly 300 characters included, passes the local check of [post]: with
    a client and an accepting library the command makes the one request,
    prints the confirmation with the preview and the URI of the new post,
    and returns. *)
Theorem post_success (w : World) (t : str) (st st1 : State) (client : Client)
    (r : StrongRef) :
  len t <= 300 ->
  get_client w st = (Ret client, st1) ->
  send_post (atproto w) client t None = inl r ->
  Cmd.post w t st =
    (Ret tt,
     emit [EvRemote (SendPost t None) true;
           EvEcho false (CHECK_MARK :: lit " Posted: " ++ preview50 t);
           EvEcho false (lit "  URI: " ++ ref_uri r)] st1).
Proof.
  intros Hle Hc Hs. pose proof (len_le_gtb t 300 Hle) as Hlen.
  enter_command Hlen Hc. rewrite Hs. run_body. now rewrite <- !app_assoc.
Qed.

Lemma post_success_witness :
  fst (Cmd.post Sample.w_creds (repeat 120%N 300) Sample.st_valid) = Ret tt
  /\ fst (Cmd.post Sample.w_creds [] Sample.st_valid) = Ret tt.
Proof.
  split.
  - rewrite (post_success Sample.w_creds (repeat 120%N 300) Sample.st_valid
               (snd (get_client Sample.w_creds Sample.st_valid)) Sample.alice
               {| ref_uri := lit "at://alice/app.bsky.feed.post/9"; ref_cid := lit "bafy9" |});
      [reflexivity | vm_compute; discriminate | reflexivity | reflexivity].
  - rewrite (post_success Sample.w_creds [] Sample.st_valid
               (snd (get_client Sample.w_creds Sample.st_valid)) Sample.alice
               {| ref_uri := lit "at://alice/app.bsky.feed.post/9"; ref_cid := lit "bafy9" |});
      [reflexivity | vm_compute; discriminate | reflexivity | reflexivity].
Defined.

(** X18.  On success [reply] posts with a reply reference whose root and
    parent are both the post that was looked up, whatever its place in the
    thread, and [like] likes that post by its own URI and CID; each prints
    its confirmation and returns. *)
Theorem reply_and_like_success
    (w : World) (u t : str) (st st1 : State) (client : Client)
    (p : PostView) (par : option ThreadNode) (rs : option (list ThreadNode)) :
  get_client w st = (Ret client, st1) ->
  get_post_thread (atproto w) client u = inl (ThreadViewPost p par rs) ->
  let target := {| ref_uri := uri p; ref_cid := cid p |} in
  let ref := {| root := target; parent_ref := target |} in
  (forall r, len t <= 300 ->
     send_post (atproto w) client t (Some ref) = inl r ->
     Cmd.reply w u t st =
       (Ret tt,
        emit [EvRemote (GetPostThread u) true;
              EvRemote (SendPost t (Some ref)) true;
              EvEcho false (CHECK_MARK :: lit " Replied: " ++ preview50 t);
              EvEcho false (lit "  URI: " ++ ref_uri r)] st1))
  /\ (like_post (atproto w) client (uri p) (cid p) = inl tt ->
      Cmd.like w u st =
        (Ret tt,
         emit [EvRemote (GetPostThread u) true;
               EvRemote (Like (uri p) (cid p)) true;
               EvEcho false (CHECK_MARK :: lit " Liked post by @" ++ handle (author p))]
              st1)).
Proof.
  intros Hc Ht target ref. split.
  - intros r Hle Hs. pose proof (len_le_gtb t 300 Hle) as Hlen.
    enter_command Hlen Hc. rewrite Ht. run_body.
    subst ref target. rewrite Hs. simpl. now rewrite <- !app_assoc.
  - intros Hl. unfold Cmd.like. rewrite (bind_Ret _ _ _ _ _ Hc), try_remote, Ht.
    run_body. rewrite Hl. simpl. now rewrite <- !app_assoc.
Qed.

Lemma reply_and_like_success_witness :
  exists st1,
    Cmd.like Sample.w_creds (lit "at://x") Sample.st_valid =
      (Ret tt,
       emit [EvRemote (GetPostThread (lit "at://x")) true;
             EvRemote (Like (lit "at://carol.test/app.bsky.feed.post/1") (lit "bafy1")) true;
             EvEcho false (CHECK_MARK :: lit " Liked post by @carol.test")] st1).
Proof.
  eexists.
  apply (reply_and_like_success Sample.w_creds (lit "at://x") (lit "yo") Sample.st_valid _
           Sample.alice (Sample.mk_post (lit "carol.test") (lit "hello")) None
           (Some (NotFoundPost (lit "at://gone") :: Sample.twelve_replies)));
    reflexivity.
Defined.



(** X20.  On success [search] prints a heading with the query and the number
    of results, then three lines per result, in order.  The first line of a
    result is the handle and the first 100 characters of the text followed
    by three dots, which are printed whether or not the text was cut. *)
Theorem search_output
    (w : World) (query : str) (limit : Z) (st st1 : State) (client : Client)
    (posts : list PostView) :
  get_client w st = (Ret client, st1) ->
  search_posts (atproto w) client query limit = inl posts ->
  Cmd.search w query limit st =
    (Ret tt,
     emit (EvRemote (SearchPosts query limit) true ::
           map (EvEcho false)
             ((lit "# Search: '" ++ query ++ lit "' ("
               ++ str_of_Z (Z.of_nat (List.length posts)) ++ lit " results)" ++ NL)
              :: flat_map search_lines posts))
          st1).
Proof.
  intros Hc Hs.
  unfold Cmd.search. rewrite (bind_Ret _ _ _ _ _ Hc), try_remote, Hs.
  unfold try_AtProtocolError, bind at 1. unfold echo at 1. rewrite log_emit.
  erewrite (for_each_echo search_lines)
    by (intros; unfold search_lines; run_body; rewrite <- ?app_assoc; reflexivity).
  rewrite !emit_emit. reflexivity.
Qed.

Lemma search_output_witness :
  stdout (trace (snd (Cmd.search Sample.w_creds (lit "q") 20 Sample.st_valid)))
  = [lit "# Search: 'q' (1 results)" ++ NL;
     lit "@carol.test: hello...";
     lit "  " ++ [HEART] ++ lit " 3  URI: at://carol.test/app.bsky.feed.post/1";
     []].
Proof.
  rewrite (search_output Sample.w_creds (lit "q") 20 Sample.st_valid
             (snd (get_client Sample.w_creds Sample.st_valid)) Sample.alice
             [Sample.mk_post (lit "carol.test") (lit "hello")] eq_refl eq_refl).
  reflexivity.
Defined.

(** X21.  [profile] without a handle asks for the profile of the logged-in
    account; with a handle, even an empty one, it asks for that handle.  On
    success it prints the handle, the display name and the description only
    when they are non-empty, an empty line and the three counts. *)
Theorem profile_output
    (w : World) (h : option str) (st st1 : State) (client : Client) (r : ProfileView) :
  get_client w st = (Ret client, st1) ->
  let asked := match h with None => me_handle client | Some h' => h' end in
  get_profile (atproto w) client asked = inl r ->
  Cmd.profile w h st =
    (Ret tt,
     emit (EvRemote (GetProfile asked) true :: map (EvEcho false) (profile_lines r)) st1).
Proof.
  intros Hc asked Hp.
  unfold Cmd.profile. rewrite (bind_Ret _ _ _ _ _ Hc), try_remote.
  fold asked. rewrite Hp. unfold profile_lines. run_body.
  destruct (truthy (p_display_name r)), (truthy (p_description r));
    simpl; now rewrite <- !app_assoc.
Qed.

Lemma profile_output_witness :
  calls (trace (snd (Cmd.profile Sample.w_creds None Sample.st_valid)))
  = [LoginSession (lit "alice:session:1"); GetProfile (lit "alice.bsky.social")]
  /\ List.length (stdout (trace (snd (Cmd.profile Sample.w_creds None Sample.st_valid))))
     = 5%nat.
Proof.
  rewrite (profile_output Sample.w_creds None Sample.st_valid
             (snd (get_client Sample.w_creds Sample.st_valid)) Sample.alice
             {| p_handle := lit "alice.bsky.social"; p_display_name := None;
                p_description := None; followers_count := Some 1;
                follows_count := Some 2; posts_count := Some 3 |}
             eq_refl eq_refl).
  split; reflexivity.
Defined.



(** ** The session file belongs to [get_client] and [logout] *)

Lemma keeps_ret {A} (a : A) : keeps_fs (ret a).
Proof. intros st. reflexivity. Qed.

Lemma keeps_raise {A} (e : exn) : keeps_fs (@raise A e).
Proof. intros st. reflexivity. Qed.

Lemma keeps_sys_exit {A} (n : Z) : keeps_fs (@sys_exit A n).
Proof. intros st. reflexivity. Qed.

Lemma keeps_log (e : Event) : keeps_fs (log e).
Proof. intros st. reflexivity. Qed.

Lemma keeps_exists : keeps_fs SESSION_FILE_exists.
Proof. intros st. reflexivity. Qed.

Lemma keeps_bind {A B} (m : M A) (k : A -> M B) :
  keeps_fs m -> (forall a, keeps_fs (k a)) -> keeps_fs (bind m k).
Proof.
  intros Hm Hk st. unfold bind. specialize (Hm st).
  destruct (m st) as [[a|n|e] st1]; simpl in *; auto.
  rewrite Hk. exact Hm.
Qed.

Lemma keeps_remote {A} (call : Call) (r : res A) : keeps_fs (remote call r).
Proof. intros st. destruct r; reflexivity. Qed.

Lemma keeps_try_AtProtocolError {A} (body : M A) (h : str -> M A) :
  keeps_fs body -> (forall e, keeps_fs (h e)) -> keeps_fs (try_AtProtocolError body h).
Proof.
  intros Hb Hh st. unfold try_AtProtocolError. specialize (Hb st).
  destruct (body st) as [[a|n|[msg| | |]] st1]; simpl in *; auto.
  rewrite Hh. exact Hb.
Qed.

Lemma keeps_for_each {A} (body : A -> M unit) (l : list A) :
  (forall x, keeps_fs (body x)) -> keeps_fs (for_each l body).
Proof.
  intros Hb. induction l as [|x l IH]; simpl.
  - apply keeps_ret.
  - apply keeps_bind; auto.
Qed.

Lemma keeps_getattr_post (n : ThreadNode) : keeps_fs (getattr_post n).
Proof.
  unfold getattr_post. destruct (node_post n); [apply keeps_ret | apply keeps_raise].
Qed.

Lemma fs_after_bind {A B} (m : M A) (k : A -> M B) (st : State) :
  (forall a, keeps_fs (k a)) -> fs (snd (bind m k st)) = fs (snd (m st)).
Proof.
  intros Hk. unfold bind. destruct (m st) as [[a|n|e] st1]; simpl; auto.
  apply Hk.
Qed.

Ltac keeps_step :=
  match goal with
  | |- keeps_fs (bind _ _) => apply keeps_bind; [|intros ?]
  | |- keeps_fs (try_AtProtocolError _ _) => apply keeps_try_AtProtocolError; [|intros ?]
  | |- keeps_fs (for_each _ _) => apply keeps_for_each; intros ?
  | |- keeps_fs (echo _) => apply keeps_log
  | |- keeps_fs (echo_err _) => apply keeps_log
  | |- keeps_fs (remote _ _) => apply keeps_remote
  | |- keeps_fs (ret _) => apply keeps_ret
  | |- keeps_fs (sys_exit _) => apply keeps_sys_exit
  | |- keeps_fs (getattr_post _) => apply keeps_getattr_post
  | |- keeps_fs SESSION_FILE_exists => apply keeps_exists
  | |- keeps_fs (match ?x with _ => _ end) => destruct x
  end.

(** X23.  Apart from [logout], a command touches the session file only
    through [get_client]: the file it leaves is the one [get_client] left,
    and when the text is rejected locally it is the one it found.  No
    content request, and no failure of one, changes or removes the cached
    session. *)
Theorem commands_keep_session_file (w : World) (c : Command) (st : State) :
  match c with
  | Logout => fs (snd (cli w c st)) = set_file None (fs st)
  | _ => fs (snd (cli w c st)) =
           if too_long c then fs st else fs (snd (get_client w st))
  end.
Proof.
  destruct c as [t | n u | u t | u | u | q n | h | | ]; simpl cli; cbn [too_long].
  - unfold Cmd.post. destruct (len t >? 300); [reflexivity|].
    rewrite (bind_Ret _ _ st tt st eq_refl).
    apply fs_after_bind. intros client. repeat keeps_step.
  - unfold Cmd.timeline. apply fs_after_bind. intros client. repeat keeps_step.
  - unfold Cmd.reply. destruct (len t >? 300); [reflexivity|].
    rewrite (bind_Ret _ _ st tt st eq_refl).
    apply fs_after_bind. intros client. repeat keeps_step.
  - unfold Cmd.like. apply fs_after_bind. intros client. repeat keeps_step.
  - unfold Cmd.thread, Cmd.show_reply. apply fs_after_bind. intros client.
    repeat keeps_step.
  - unfold Cmd.search. apply fs_after_bind. intros client. repeat keeps_step.
  - unfold Cmd.profile. apply fs_after_bind. intros client. repeat keeps_step.
  - unfold Cmd.whoami. apply fs_after_bind. intros client. repeat keeps_step.
  - destruct st as [[[raw|] r wr] tr]; reflexivity.
Qed.

(** ** Defaults of [format_post] *)

Lemma or_str_default (o : option str) (h : str) :
  or_str (Some (or_str o h)) h = or_str o h.
Proof. destruct o as [[|c s]|]; simpl; try reflexivity; now destruct h. Qed.

(** X24.  [format_post] does not tell an absent count from 0, nor an absent
    or empty display name from one equal to the handle: filling in these
    defaults leaves the rendering unchanged. *)
Theorem format_post_defaults (w : World) (item : FeedViewPost) (show_uri : bool) :
  format_post w (defaulted item) show_uri = format_post w item show_uri.
Proof.
  destruct item as [[u c [h dn] rec lc rc rpc]].
  unfold format_post, defaulted, author_line, stats_line.
  cbn [post author handle display_name record uri cid like_count repost_count
       reply_count or0].
  rewrite or_str_default. destruct lc, rc, rpc; reflexivity.
Qed.
